(** * ContentLoop AI: a shallow embedding of the backend

    The development follows the three Python modules of the backend:

    - [conversation.py]: the LangGraph workflow (content generator,
      feedback collector, finalizer) compiled with a [MemorySaver]
      checkpointer;
    - [main.py]: the FastAPI handlers over the global [active_sessions]
      dictionary and the expiry sweep;
    - [optimization_agent.py]: the optimization agent with its local
      fallback report and the hashtags-only operation.

    Python dictionaries keyed by strings are [gmap string _]; handlers thread
    the process state explicitly and return either a response or the
    exception they raise. *)

From Stdlib Require Import ZArith String Ascii List Lia Bool.
From stdpp Require Import gmap strings list fin_maps pretty.
Import ListNotations.

Local Open Scope string_scope.
Local Open Scope Z_scope.

(** ** Python strings

    A Python [str] is modelled as a Rocq [string] holding its UTF-8
    encoding.  The methods of [str] and the character classes of [re] that
    depend on Unicode tables are parameters of the definitions whose output
    they reach ([StrMethods] and the [findall] arguments below).  The
    functions of this module are those methods on ASCII text: they leave
    every other byte alone.  They decide the test against "done" as
    [str.lower] does, since no character outside ASCII lower-cases to one of
    its letters, and they instantiate the parameters on ASCII samples. *)
Module PyStr.

Definition is_upper (c : ascii) : bool :=
  let n := nat_of_ascii c in (Nat.leb 65 n) && (Nat.leb n 90).

Definition is_lower (c : ascii) : bool :=
  let n := nat_of_ascii c in (Nat.leb 97 n) && (Nat.leb n 122).

Definition is_digit (c : ascii) : bool :=
  let n := nat_of_ascii c in (Nat.leb 48 n) && (Nat.leb n 57).

Definition lower_char (c : ascii) : ascii :=
  if is_upper c then ascii_of_nat (nat_of_ascii c + 32) else c.

Definition upper_char (c : ascii) : ascii :=
  if is_lower c then ascii_of_nat (nat_of_ascii c - 32) else c.

(** [str.lower()] on ASCII text. *)
Fixpoint lower (s : string) : string :=
  match s with
  | EmptyString => EmptyString
  | String c r => String (lower_char c) (lower r)
  end.

(** [str.capitalize()] on ASCII text: first character upper-cased, the rest
    lower-cased. *)
Definition capitalize (s : string) : string :=
  match s with
  | EmptyString => EmptyString
  | String c r => String (upper_char c) (lower r)
  end.

(** The ASCII characters [str.split()] and [str.isspace()] treat as white
    space: tab, line feed, vertical tab, form feed, carriage return, the
    four separators 0x1c-0x1f and the space. *)
Definition is_space (c : ascii) : bool :=
  let n := nat_of_ascii c in
  ((Nat.leb 9 n) && (Nat.leb n 13)) || ((Nat.leb 28 n) && (Nat.leb n 32)).

(** The ASCII characters in the class [\w] of the [re] module. *)
Definition is_word (c : ascii) : bool :=
  is_upper c || is_lower c || is_digit c || Ascii.eqb c "_"%char.

(** [s.replace(c, '')] for a one-character pattern. *)
Fixpoint remove_char (x : ascii) (s : string) : string :=
  match s with
  | EmptyString => EmptyString
  | String c r => if Ascii.eqb c x then remove_char x r else String c (remove_char x r)
  end.

(** [str.split()] with no argument on ASCII text: maximal runs of non-space
    characters.  [cur] is the word being read, in reverse. *)
Fixpoint split_ws_aux (cur : list ascii) (s : string) : list string :=
  match s with
  | EmptyString =>
      match cur with
      | [] => []
      | _ => [string_of_list_ascii (rev cur)]
      end
  | String c r =>
      if is_space c then
        match cur with
        | [] => split_ws_aux [] r
        | _ => string_of_list_ascii (rev cur) :: split_ws_aux [] r
        end
      else split_ws_aux (c :: cur) r
  end.

Definition split_ws (s : string) : list string := split_ws_aux [] s.

(** [s.split(sep)] for the two-character separator [a b]: the pieces
    between non-overlapping occurrences, scanned from the left. *)
Fixpoint split2_aux (a b : ascii) (cur : list ascii) (s : string) : list string :=
  match s with
  | EmptyString => [string_of_list_ascii (rev cur)]
  | String c r =>
      match r with
      | String d r' =>
          if Ascii.eqb c a && Ascii.eqb d b
          then string_of_list_ascii (rev cur) :: split2_aux a b [] r'
          else split2_aux a b (c :: cur) r
      | EmptyString => [string_of_list_ascii (rev (c :: cur))]
      end
  end.

Definition split2 (a b : ascii) (s : string) : list string := split2_aux a b [] s.

(** Python truthiness of a string. *)
Definition truthy (s : string) : bool :=
  match s with EmptyString => false | _ => true end.

End PyStr.

(** ** Exceptions

    [HTTPException] is a subclass of [Exception], like every exception the
    collaborators raise: an [except Exception] clause catches all of them. *)
Inductive exn : Type :=
| HTTPException (status_code : nat) (detail : string)
| LLMError (msg : string)
| GraphRecursionError
| KeyError (key : string).

(** [str(e)]; an [HTTPException] prints as its status code and detail, a
    [KeyError] as its key between quotes. *)
Definition str_exn (e : exn) : string :=
  match e with
  | HTTPException c d => pretty (Z.of_nat c) ++ ": " ++ d
  | LLMError m => m
  | GraphRecursionError => "Recursion limit reached"
  | KeyError k => "'" ++ k ++ "'"
  end.

(** ** Sessions ([main.py]) *)

Inductive Status : Type := waiting_feedback | completed.

#[global] Instance Status_eq_dec : EqDecision Status.
Proof. solve_decision. Defined.

(** The request of [/api/ai-agent/start]; it is also the initial state
    handed to the workflow (with empty message lists). *)
Record AIAgentStartRequest : Type := {
  topic : string;
  content_length : string;
  writing_style : string;
}.

(** One value of [active_sessions].  Times are microseconds since an epoch,
    the resolution of [datetime].  [last_activity] is optional because the
    sweep reads it through [dict.get] with [created_at] as the default. *)
Record Session : Type := {
  thread_config : string;
  state : AIAgentStartRequest;
  current_post : string;
  status : Status;
  created_at : Z;
  last_activity : option Z;
}.

Definition SESSION_TIMEOUT_MINUTES : Z := 5.

(** [timedelta(minutes=m)] in microseconds. *)
Definition timedelta_minutes (m : Z) : Z := m * 60 * 1000000.

(** [session_data.get("last_activity", session_data.get("created_at"))] *)
Definition last_activity_or_created (session_data : Session) : Z :=
  default (created_at session_data) (last_activity session_data).

(** The test of the sweep's first loop. *)
Definition is_expired (current_time : Z) (session_data : Session) : bool :=
  bool_decide (current_time - last_activity_or_created session_data
               > timedelta_minutes SESSION_TIMEOUT_MINUTES).

(** [cleanup_expired_sessions]: the first loop collects the expired
    identifiers, the second deletes them; the result is the number collected
    together with the store after the deletions. *)
Definition cleanup_expired_sessions (current_time : Z)
    (active_sessions : gmap string Session) : nat * gmap string Session :=
  let expired_sessions :=
    (filter (λ kv, is_expired current_time kv.2 = true)
            (map_to_list active_sessions)).*1 in
  (length expired_sessions,
   foldl (λ m session_id, delete session_id m) active_sessions expired_sessions).

(** ** The workflow ([conversation.py]) *)

(** A message of a state channel: [HumanMessage] for feedback, [AIMessage]
    for drafts.  [msg_id] is [None] until the channel's reducer assigns one. *)
Record Message : Type := {
  msg_id : option nat;
  content : string;
}.

#[global] Instance Message_eq_dec : EqDecision Message.
Proof. solve_decision. Defined.

(** [class State(TypedDict)] *)
Record State : Type := {
  st_topic : string;
  st_content_length : string;
  st_writing_style : string;
  generated_post : list Message;
  human_feedback : list Message;
  should_continue : bool;
}.

(** What a node returns: a dictionary with some of the state's keys. *)
Record Update : Type := {
  u_generated_post : option (list Message);
  u_human_feedback : option (list Message);
  u_should_continue : option bool;
}.

(** The text-generation collaborator.  The prompt of [content_generator]
    is a function of the four values below; the collaborator is not
    deterministic, so its answer may also depend on how many calls were made
    before.  It returns the content of its response or raises. *)
Record Prompt : Type := {
  p_topic : string;
  p_content_length : string;
  p_writing_style : string;
  p_feedback : option Message;
}.

Inductive LLMResult : Type :=
| Returns (response_content : string)
| Raises (msg : string).

Definition LLM : Type := nat → Prompt → LLMResult.

(** *** The [add_messages] reducer

    Messages without an identifier receive a fresh one (a [uuid4] in the
    library, the next value of [supply] here); a message of [right] whose
    identifier occurs in [left] replaces that message in place, any other is
    appended. *)
Fixpoint assign_ids (supply : nat) (l : list Message) : list Message * nat :=
  match l with
  | [] => ([], supply)
  | m :: r =>
      match msg_id m with
      | Some _ => let '(r', s') := assign_ids supply r in (m :: r', s')
      | None =>
          let '(r', s') := assign_ids (S supply) r in
          ({| msg_id := Some supply; content := content m |} :: r', s')
      end
  end.

(** Index in [left] of the message with identifier [i]; the library's
    dictionary comprehension keeps the last index of a repeated identifier. *)
Fixpoint left_idx_by_id (left : list Message) (i : option nat) (pos : nat) : option nat :=
  match left with
  | [] => None
  | m :: r =>
      match left_idx_by_id r i (S pos) with
      | Some k => Some k
      | None => if decide (msg_id m = i) then Some pos else None
      end
  end.

Fixpoint merge_messages (left merged right : list Message) : list Message :=
  match right with
  | [] => merged
  | m :: r =>
      match left_idx_by_id left (msg_id m) 0 with
      | Some existing_idx => merge_messages left (<[existing_idx := m]> merged) r
      | None => merge_messages left (merged ++ [m])%list r
      end
  end.

Definition add_messages (supply : nat) (left right : list Message) : list Message * nat :=
  let '(left', s1) := assign_ids supply left in
  let '(right', s2) := assign_ids s1 right in
  (merge_messages left' left' right', s2).

(** Writing a node's update into the channels: the two message lists go
    through [add_messages], [should_continue] is overwritten. *)
Definition apply_update (supply : nat) (s : State) (u : Update) : State * nat :=
  let '(gp, s1) :=
    match u_generated_post u with
    | Some r => add_messages supply (generated_post s) r
    | None => (generated_post s, supply)
    end in
  let '(hf, s2) :=
    match u_human_feedback u with
    | Some r => add_messages s1 (human_feedback s) r
    | None => (human_feedback s, s1)
    end in
  ({| st_topic := st_topic s;
      st_content_length := st_content_length s;
      st_writing_style := st_writing_style s;
      generated_post := gp;
      human_feedback := hf;
      should_continue := default (should_continue s) (u_should_continue u) |}, s2).

(** *** The nodes *)

(** [content_generator]: the prompt carries the last feedback message, if
    any; the node raises when the collaborator does. *)
Definition content_generator_prompt (state : State) : Prompt :=
  {| p_topic := st_topic state;
     p_content_length := st_content_length state;
     p_writing_style := st_writing_style state;
     p_feedback := last (human_feedback state) |}.

Definition content_generator (llm : LLM) (calls : nat) (state : State) : exn + Update :=
  let feedback := human_feedback state in
  match llm calls (content_generator_prompt state) with
  | Raises msg => inl (LLMError msg)
  | Returns generated_content_post =>
      inr {| u_generated_post :=
               Some [ {| msg_id := None; content := generated_content_post |} ];
             u_human_feedback := Some feedback;
             u_should_continue := None |}
  end.

(** [feedback_collector] after [interrupt] has returned [user_feedback]. *)
Definition feedback_collector (state : State) (user_feedback : string) : Update :=
  let updated_feedback :=
    (human_feedback state ++ [ {| msg_id := None; content := user_feedback |} ])%list in
  {| u_generated_post := None;
     u_human_feedback := Some updated_feedback;
     u_should_continue := Some (negb (String.eqb (PyStr.lower user_feedback) "done")) |}.

Definition content_finalizer (state : State) : Update :=
  {| u_generated_post := Some (generated_post state);
     u_human_feedback := Some (human_feedback state);
     u_should_continue := None |}.

Inductive Node : Type :=
| N_content_generator
| N_feedback_collector
| N_content_finalizer.

#[global] Instance Node_eq_dec : EqDecision Node.
Proof. solve_decision. Defined.

(** [should_continue_feedback] *)
Definition should_continue_feedback (state : State) : Node :=
  if should_continue state then N_content_generator else N_content_finalizer.

(** *** The compiled graph and its checkpointer

    A checkpoint holds the channel values, the node scheduled next ([None]
    once the finish point has run) and the identifier supply.  The runtime
    saves a checkpoint after every node; a node that raises or interrupts
    leaves the last saved one in place. *)
Record Checkpoint : Type := {
  values : State;
  next : option Node;
  id_supply : nat;
}.

(** The payload of [interrupt(...)] in [feedback_collector]. *)
Record Interrupt : Type := {
  i_generated_post : list Message;
  i_message : string;
}.

(** A streamed chunk maps a node name to what the node wrote; the name
    ["__interrupt__"] maps to a tuple of [Interrupt] objects. *)
Inductive ChunkValue : Type :=
| V_update (u : Update)
| V_interrupt (payload : list Interrupt).

Definition Chunk : Type := list (string * ChunkValue).

Record RunResult : Type := {
  r_checkpoint : Checkpoint;
  r_calls : nat;
  r_stream : exn + list Chunk;
}.

(** The default [recursion_limit] of a run. *)
Definition recursion_limit : nat := 25.

(** One run of the graph from a checkpoint.  [resume] is the value of
    [Command(resume=...)]: it answers the interrupt of [feedback_collector]
    when the run starts there; a run that starts at another node drops it
    and parks at the gate as usual. *)
Fixpoint run (llm : LLM) (fuel : nat) (cp : Checkpoint) (resume : option string)
    (calls : nat) (emitted : list Chunk) : RunResult :=
  match fuel with
  | O => {| r_checkpoint := cp; r_calls := calls; r_stream := inl GraphRecursionError |}
  | S fuel' =>
      match next cp with
      | None => {| r_checkpoint := cp; r_calls := calls; r_stream := inr emitted |}
      | Some N_content_generator =>
          match content_generator llm calls (values cp) with
          | inl e => {| r_checkpoint := cp; r_calls := S calls; r_stream := inl e |}
          | inr u =>
              let '(st', s') := apply_update (id_supply cp) (values cp) u in
              run llm fuel'
                  {| values := st'; next := Some N_feedback_collector; id_supply := s' |}
                  None (S calls)
                  (emitted ++ [[("content_generator", V_update u)]])%list
          end
      | Some N_feedback_collector =>
          match resume with
          | None =>
              {| r_checkpoint := cp; r_calls := calls;
                 r_stream :=
                   inr (emitted ++
                        [[("__interrupt__",
                           V_interrupt
                             [ {| i_generated_post := generated_post (values cp);
                                  i_message := "Provide feedback or type 'done' to finish" |} ])]])%list |}
          | Some user_feedback =>
              let u := feedback_collector (values cp) user_feedback in
              let '(st', s') := apply_update (id_supply cp) (values cp) u in
              run llm fuel'
                  {| values := st'; next := Some (should_continue_feedback st');
                     id_supply := s' |}
                  None calls
                  (emitted ++ [[("feedback_collector", V_update u)]])%list
          end
      | Some N_content_finalizer =>
          let u := content_finalizer (values cp) in
          let '(st', s') := apply_update (id_supply cp) (values cp) u in
          run llm fuel'
              {| values := st'; next := None; id_supply := s' |}
              resume calls
              (emitted ++ [[("content_finalizer", V_update u)]])%list
      end
  end.

(** The checkpoint a thread starts from when [stream] is given an input
    state: the input is written into the channels and the entry node is
    scheduled.  For a thread the checkpointer already knows, the input is
    written over that thread's channels. *)
Definition input_checkpoint (existing : option Checkpoint)
    (initial_state : AIAgentStartRequest) : Checkpoint :=
  {| values :=
       {| st_topic := topic initial_state;
          st_content_length := content_length initial_state;
          st_writing_style := writing_style initial_state;
          generated_post := from_option (λ cp, generated_post (values cp)) [] existing;
          human_feedback := from_option (λ cp, human_feedback (values cp)) [] existing;
          should_continue := true |};
     next := Some N_content_generator;
     id_supply := from_option id_supply 0%nat existing |}.

(** ** The process state

    [active_sessions] of [main.py], the storage of the [MemorySaver]
    checkpointer (one checkpoint per thread identifier) and the number of
    calls made to the text-generation collaborator so far. *)
Record World : Type := {
  active_sessions : gmap string Session;
  checkpointer : gmap string Checkpoint;
  llm_calls : nat;
}.

Definition empty_world : World :=
  {| active_sessions := ∅; checkpointer := ∅; llm_calls := 0 |}.

(** [conversation_app.stream(initial_state, config=thread_config)] *)
Definition stream_input (llm : LLM) (initial_state : AIAgentStartRequest)
    (thread_id : string) (w : World) : World * (exn + list Chunk) :=
  let cp0 := input_checkpoint (checkpointer w !! thread_id) initial_state in
  let r := run llm recursion_limit cp0 None (llm_calls w) [] in
  ({| active_sessions := active_sessions w;
      checkpointer := <[thread_id := r_checkpoint r]> (checkpointer w);
      llm_calls := r_calls r |},
   r_stream r).

(** [conversation_app.stream(Command(resume=feedback), config=thread_config)].
    For a thread the checkpointer does not know the graph is started on an
    empty state, where [content_generator] fails on [state["topic"]]; the
    store is returned as it was.  The handlers resume only threads they
    have started, so no state built by the handlers reaches this case. *)
Definition stream_resume (llm : LLM) (feedback : string)
    (thread_id : string) (w : World) : World * (exn + list Chunk) :=
  match checkpointer w !! thread_id with
  | None => (w, inl (KeyError "topic"))
  | Some cp =>
      let r := run llm recursion_limit cp (Some feedback) (llm_calls w) [] in
      ({| active_sessions := active_sessions w;
          checkpointer := <[thread_id := r_checkpoint r]> (checkpointer w);
          llm_calls := r_calls r |},
       r_stream r)
  end.

(** ** The handlers ([main.py]) *)

(** [value["generated_post"][-1].content], when the list is not empty. *)
Definition last_post_content (posts : list Message) (generated_post : string) : string :=
  from_option content generated_post (last posts).

(** The inner loop over [chunk.items()].  On ["__interrupt__"] the value
    is a tuple of [Interrupt] objects, in which the string
    ["generated_post"] does not occur, and the loop breaks. *)
Fixpoint scan_chunk (items : Chunk) (generated_post : string) : string :=
  match items with
  | [] => generated_post
  | (node_id, value) :: rest =>
      if String.eqb node_id "__interrupt__" then
        match value with
        | V_interrupt _ => generated_post
        | V_update u =>
            match u_generated_post u with
            | Some posts => last_post_content posts generated_post
            | None => generated_post
            end
        end
      else
        match value with
        | V_update u =>
            match u_generated_post u with
            | Some posts =>
                if String.eqb node_id "content_generator"
                then scan_chunk rest (last_post_content posts generated_post)
                else scan_chunk rest generated_post
            | None => scan_chunk rest generated_post
            end
        | V_interrupt _ => scan_chunk rest generated_post
        end
  end.

(** The outer loop over the streamed chunks. *)
Definition scan_stream (chunks : list Chunk) (generated_post : string) : string :=
  foldl (λ acc chunk, scan_chunk chunk acc) generated_post chunks.

Record AIAgentResponse : Type := {
  start_session_id : string;
  start_generated_post : string;
  start_status : Status;
  start_success : bool;
  start_message : option string;
}.

Record AIAgentFeedbackRequest : Type := {
  session_id : string;
  feedback : string;
}.

Record AIAgentFeedbackResponse : Type := {
  fb_session_id : string;
  fb_generated_post : option string;
  fb_status : Status;
  fb_success : bool;
  fb_message : option string;
}.

(** The [try] block of [start_ai_agent_session].  [uuid] is the value of
    [str(uuid.uuid4())]; [now_created] and [now_activity] are the two
    readings of [datetime.now()]. *)
Definition start_ai_agent_session_try (llm : LLM) (uuid : string)
    (now_created now_activity : Z) (request : AIAgentStartRequest) (w : World)
    : World * (exn + AIAgentResponse) :=
  let thread_config := uuid in
  let initial_state := request in
  match stream_input llm initial_state thread_config w with
  | (w1, inl e) => (w1, inl e)
  | (w1, inr chunks) =>
      let generated_post := scan_stream chunks "" in
      ({| active_sessions :=
            <[uuid := {| thread_config := thread_config;
                         state := initial_state;
                         current_post := generated_post;
                         status := waiting_feedback;
                         created_at := now_created;
                         last_activity := Some now_activity |}]> (active_sessions w1);
          checkpointer := checkpointer w1;
          llm_calls := llm_calls w1 |},
       inr {| start_session_id := uuid;
              start_generated_post := generated_post;
              start_status := waiting_feedback;
              start_success := true;
              start_message :=
                Some "AI agent session started. Content generated, waiting for feedback." |})
  end.

(** [start_ai_agent_session]: whatever the [try] block raises is caught by
    [except Exception] and raised again with status 500. *)
Definition start_ai_agent_session (llm : LLM) (uuid : string)
    (now_created now_activity : Z) (request : AIAgentStartRequest) (w : World)
    : World * (exn + AIAgentResponse) :=
  match start_ai_agent_session_try llm uuid now_created now_activity request w with
  | (w', inl e) =>
      (w', inl (HTTPException 500 ("Error starting AI agent session: " ++ str_exn e)))
  | (w', inr response) => (w', inr response)
  end.

(** [active_sessions[session_id][key] = v] on an existing session. *)
Definition set_status (v : Status) (s : Session) : Session :=
  {| thread_config := thread_config s; state := state s;
     current_post := current_post s; status := v;
     created_at := created_at s; last_activity := last_activity s |}.

Definition set_current_post (v : string) (s : Session) : Session :=
  {| thread_config := thread_config s; state := state s;
     current_post := v; status := status s;
     created_at := created_at s; last_activity := last_activity s |}.

Definition set_last_activity (v : Z) (s : Session) : Session :=
  {| thread_config := thread_config s; state := state s;
     current_post := current_post s; status := status s;
     created_at := created_at s; last_activity := Some v |}.

(** The [try] block of [provide_ai_agent_feedback]; [now] is the reading of
    [datetime.now()] after the resumed stream. *)
Definition provide_ai_agent_feedback_try (llm : LLM) (now : Z)
    (request : AIAgentFeedbackRequest) (w : World)
    : World * (exn + AIAgentFeedbackResponse) :=
  let session_id := session_id request in
  let feedback := feedback request in
  match active_sessions w !! session_id with
  | None => (w, inl (HTTPException 404 "Session not found"))
  | Some session_data =>
      let thread_config := thread_config session_data in
      if String.eqb (PyStr.lower feedback) "done" then
        ({| active_sessions := alter (set_status completed) session_id (active_sessions w);
            checkpointer := checkpointer w;
            llm_calls := llm_calls w |},
         inr {| fb_session_id := session_id;
                fb_generated_post := Some (current_post session_data);
                fb_status := completed;
                fb_success := true;
                fb_message := Some "Content finalized successfully!" |})
      else
        match stream_resume llm feedback thread_config w with
        | (w1, inl e) => (w1, inl e)
        | (w1, inr chunks) =>
            let generated_post := scan_stream chunks "" in
            ({| active_sessions :=
                  alter (set_last_activity now)
                    session_id
                    (alter (set_current_post generated_post) session_id
                       (active_sessions w1));
                checkpointer := checkpointer w1;
                llm_calls := llm_calls w1 |},
             inr {| fb_session_id := session_id;
                    fb_generated_post := Some generated_post;
                    fb_status := waiting_feedback;
                    fb_success := true;
                    fb_message :=
                      Some "Feedback processed. New content generated, waiting for more feedback." |})
        end
  end.

(** [provide_ai_agent_feedback]: the [except Exception] clause encloses the
    whole body, the existence check included. *)
Definition provide_ai_agent_feedback (llm : LLM) (now : Z)
    (request : AIAgentFeedbackRequest) (w : World)
    : World * (exn + AIAgentFeedbackResponse) :=
  match provide_ai_agent_feedback_try llm now request w with
  | (w', inl e) =>
      (w', inl (HTTPException 500 ("Error processing feedback: " ++ str_exn e)))
  | (w', inr response) => (w', inr response)
  end.

(** [get_ai_agent_session]: no [try] around the existence check. *)
Definition get_ai_agent_session (sid : string) (w : World) : exn + (string * Status) :=
  match active_sessions w !! sid with
  | None => inl (HTTPException 404 "Session not found")
  | Some session_data => inr (current_post session_data, status session_data)
  end.

(** [delete_ai_agent_session] *)
Definition delete_ai_agent_session (sid : string) (w : World) : World * (exn + bool) :=
  match active_sessions w !! sid with
  | None => (w, inl (HTTPException 404 "Session not found"))
  | Some _ =>
      ({| active_sessions := delete sid (active_sessions w);
          checkpointer := checkpointer w;
          llm_calls := llm_calls w |}, inr true)
  end.

(** [manual_cleanup_sessions] and the body of [periodic_cleanup]: the sweep
    applied to the process state at the instant [now]. *)
Definition manual_cleanup_sessions (now : Z) (w : World) : World * nat :=
  let '(cleaned_count, sessions') := cleanup_expired_sessions now (active_sessions w) in
  ({| active_sessions := sessions';
      checkpointer := checkpointer w;
      llm_calls := llm_calls w |}, cleaned_count).

(** ** The optimization agent ([optimization_agent.py]) *)

(** The values [json.loads] produces and the handlers return as
    [Dict[str, Any]]. *)
#[warnings="-register-all"]
Inductive json : Type :=
| JNull
| JBool (b : bool)
| JInt (n : Z)
| JFloat (repr : string)
| JStr (s : string)
| JList (l : list json)
| JDict (items : list (string * json)).

(** [d[key]] on a [JDict]. *)
Fixpoint assoc (key : string) (items : list (string * json)) : option json :=
  match items with
  | [] => None
  | (k, v) :: r => if String.eqb k key then Some v else assoc key r
  end.

Definition json_get (key : string) (j : json) : option json :=
  match j with
  | JDict items => assoc key items
  | _ => None
  end.

(** The longest prefix that ends with a closing brace. *)
Fixpoint upto_last_close (s : string) : option string :=
  match s with
  | EmptyString => None
  | String c r =>
      match upto_last_close r with
      | Some p => Some (String c p)
      | None => if Ascii.eqb c "}"%char then Some (String c EmptyString) else None
      end
  end.

(** [re.search(r'\{.*\}', content_text, re.DOTALL)] and [group(0)]: the
    leftmost opening brace that has a closing brace after it, up to the last
    closing brace of the text. *)
Fixpoint search_braces (content_text : string) : option string :=
  match content_text with
  | EmptyString => None
  | String c r =>
      if Ascii.eqb c "{"%char then
        match upto_last_close r with
        | Some p => Some (String c p)
        | None => search_braces r
        end
      else search_braces r
  end.

(** The Unicode-aware methods of [str] that [_create_fallback_optimization]
    applies to the topic: [str.lower()], [str.split()] and
    [str.capitalize()]. *)
Record StrMethods : Type := {
  str_lower : string → string;
  str_split : string → list string;
  str_capitalize : string → string;
}.

(** The three methods on ASCII text. *)
Definition ascii_methods : StrMethods :=
  {| str_lower := PyStr.lower;
     str_split := PyStr.split_ws;
     str_capitalize := PyStr.capitalize |}.

(** The hashtags of [_create_fallback_optimization]. *)
Definition fallback_hashtags_with (m : StrMethods) (topic : string) : list string :=
  let words :=
    if PyStr.truthy topic then str_split m (str_lower m topic)
    else ["content"; "professional"] in
  let hashtags :=
    map (λ word, "#" ++ str_capitalize m (PyStr.remove_char " "%char word))
        (take 3 words) in
  let hashtags := (hashtags ++ ["#Content"; "#ProfessionalGrowth"])%list in
  take 5 hashtags.

Definition paragraph_count (content : string) : nat :=
  length (PyStr.split2 "010"%char "010"%char content).

(** [_create_fallback_optimization] *)
Definition _create_fallback_optimization_with (m : StrMethods)
    (content : string) (topic : string) : json :=
  JDict [
    ("hashtags", JDict [
       ("suggested", JList (map JStr (fallback_hashtags_with m topic)));
       ("reasoning", JStr "Basic hashtag suggestions based on content topic") ]);
    ("call_to_action", JDict [
       ("current_cta", JStr "None detected");
       ("improved_cta",
        JStr "What are your thoughts on this topic? Share your experience below!");
       ("alternatives", JList [
          JStr "How has this impacted your professional journey?";
          JStr "What strategies have worked for you?";
          JStr "I'd love to hear your perspective in the comments!" ]) ]);
    ("structure_analysis", JDict [
       ("readability_score", JStr "Good");
       ("paragraph_count", JInt (Z.of_nat (paragraph_count content)));
       ("hook_effectiveness", JStr "Moderate");
       ("suggestions", JList [
          JStr "Consider starting with a compelling question or statistic";
          JStr "Use bullet points or numbered lists for better readability" ]) ]);
    ("engagement_optimization", JDict [
       ("predicted_engagement", JStr "Medium");
       ("engagement_triggers", JList [
          JStr "Personal experience"; JStr "Industry insights"; JStr "Call to action" ]);
       ("improvements", JList [
          JStr "Add a personal anecdote or example";
          JStr "Include a thought-provoking question" ]) ]);
    ("overall_score", JInt 75);
    ("key_recommendations", JList [
       JStr "Enhance with relevant hashtags";
       JStr "Strengthen the call-to-action";
       JStr "Add personal examples for authenticity" ])
  ].

(** The collaborator as [optimize_content] calls it: its prompt is a
    function of the four arguments. *)
Definition AnalysisLLM : Type := string → string → string → string → LLMResult.

(** [optimize_content].  [json_loads] is [json.loads]: [None] when it
    raises.  Both the collaborator's exception and the parser's end in the
    [except Exception] clause. *)
Definition optimize_content_with (m : StrMethods) (llm : AnalysisLLM)
    (json_loads : string → option json)
    (content topic content_length industry : string) : json :=
  match llm content topic content_length industry with
  | Raises _ => _create_fallback_optimization_with m content topic
  | Returns content_text =>
      match search_braces content_text with
      | Some json_str =>
          match json_loads json_str with
          | Some optimization_data => optimization_data
          | None => _create_fallback_optimization_with m content topic
          end
      | None => _create_fallback_optimization_with m content topic
      end
  end.

(** The fallback report and [optimize_content] with the three methods on
    ASCII text. *)
Definition _create_fallback_optimization (content : string) (topic : string) : json :=
  _create_fallback_optimization_with ascii_methods content topic.

Definition optimize_content (llm : AnalysisLLM) (json_loads : string → option json)
    (content topic content_length industry : string) : json :=
  optimize_content_with ascii_methods llm json_loads content topic content_length industry.

(** [re.findall(r'#\w+', text)] on ASCII text.  [cur] is the run of word
    characters read after the last number sign, in reverse; [None] outside a
    candidate. *)
Definition emit_hashtag (cur : option (list ascii)) : list string :=
  match cur with
  | Some (c :: acc) => [String "#"%char (string_of_list_ascii (rev (c :: acc)))]
  | _ => []
  end.

Definition open_hashtag (c : ascii) : option (list ascii) :=
  if Ascii.eqb c "#"%char then Some [] else None.

Fixpoint findall_hashtags_aux (cur : option (list ascii)) (text : string) : list string :=
  match text with
  | EmptyString => emit_hashtag cur
  | String c r =>
      match cur with
      | Some acc =>
          if PyStr.is_word c then findall_hashtags_aux (Some (c :: acc)) r
          else (emit_hashtag cur ++ findall_hashtags_aux (open_hashtag c) r)%list
      | None => findall_hashtags_aux (open_hashtag c) r
      end
  end.

Definition findall_hashtags (text : string) : list string :=
  findall_hashtags_aux None text.

(** The slice [l[:count]] for any integer [count]. *)
Definition slice_to {A} (l : list A) (count : Z) : list A :=
  if Z.leb 0 count then take (Z.to_nat count) l
  else take (Z.to_nat (Z.of_nat (length l) + count)) l.

(** The collaborator as [suggest_hashtags_only] calls it. *)
Definition HashtagLLM : Type := string → string → Z → LLMResult.

(** [suggest_hashtags_only].  [findall] is [re.findall(r'#\w+', ·)], whose
    class [\w] is Unicode-aware. *)
Definition suggest_hashtags_only_with (findall : string → list string)
    (llm : HashtagLLM) (content topic : string) (count : Z) : list string :=
  match llm content topic count with
  | Returns response_content =>
      let hashtags := findall response_content in
      match hashtags with
      | [] => ["#Content"; "#Professional"; "#Growth"]
      | _ => slice_to hashtags count
      end
  | Raises _ => ["#Content"; "#Professional"; "#Growth"; "#Success"; "#Business"]
  end.

(** [suggest_hashtags_only] with the tokenizer for ASCII text. *)
Definition suggest_hashtags_only (llm : HashtagLLM)
    (content topic : string) (count : Z) : list string :=
  suggest_hashtags_only_with findall_hashtags llm content topic count.

(** An ASCII string of the shape [#\w+]. *)
Definition is_hashtag (s : string) : bool :=
  match s with
  | String c (String d r) =>
      Ascii.eqb c "#"%char && forallb PyStr.is_word (d :: list_ascii_of_string r)
  | _ => false
  end.

(** The collaborator's outcome yields no structured record: it raised,
    its text has no brace-delimited part, or [json.loads] rejects that
    part. *)
Definition no_structured_record (json_loads : string → option json)
    (outcome : LLMResult) : bool :=
  match outcome with
  | Raises _ => true
  | Returns content_text =>
      match search_braces content_text with
      | None => true
      | Some json_str =>
          match json_loads json_str with None => true | Some _ => false end
      end
  end.

(** ** Observations used by the properties *)

(** The feedback history of a thread: the contents of the [human_feedback]
    channel in the thread's checkpoint. *)
Definition feedback_history (w : World) (thread_id : string) : list string :=
  from_option (λ cp, map content (human_feedback (values cp))) [] (checkpointer w !! thread_id).

(** The termination test of [provide_ai_agent_feedback] and of
    [feedback_collector]. *)
Definition is_done (feedback : string) : bool := String.eqb (PyStr.lower feedback) "done".

(** A run of feedback submissions on one session, each at its own instant;
    [None] as soon as one of them fails. *)
Fixpoint submit_all (llm : LLM) (sid : string) (submissions : list (Z * string))
    (w : World) : option World :=
  match submissions with
  | [] => Some w
  | (now, f) :: rest =>
      match provide_ai_agent_feedback llm now {| session_id := sid; feedback := f |} w with
      | (w', inr _) => submit_all llm sid rest w'
      | (_, inl _) => None
      end
  end.

(** A session holds a live resumption token when the checkpointer has a
    checkpoint for its thread with a node still scheduled. *)
Definition holds_live_token (w : World) (s : Session) : bool :=
  match checkpointer w !! thread_config s with
  | Some cp => match next cp with Some _ => true | None => false end
  | None => false
  end.

(** The process states the handlers can produce from the empty one.  A
    fresh [uuid4] is a thread identifier the checkpointer has not seen. *)
Inductive reachable (llm : LLM) : World → Prop :=
| reach_empty : reachable llm empty_world
| reach_start uuid now_created now_activity request w :
    reachable llm w →
    checkpointer w !! uuid = None →
    reachable llm (start_ai_agent_session llm uuid now_created now_activity request w).1
| reach_feedback now request w :
    reachable llm w →
    reachable llm (provide_ai_agent_feedback llm now request w).1
| reach_delete sid w :
    reachable llm w →
    reachable llm (delete_ai_agent_session sid w).1
| reach_cleanup now w :
    reachable llm w →
    reachable llm (manual_cleanup_sessions now w).1.

(** The checkpoint saved once [feedback_collector] has run with the resumed
    value [f]. *)
Definition after_feedback (cp : Checkpoint) (f : string) : Checkpoint :=
  let r := apply_update (id_supply cp) (values cp) (feedback_collector (values cp) f) in
  {| values := r.1; next := Some (should_continue_feedback r.1); id_supply := r.2 |}.

(** Message lists as the reducer keeps them: every message has an
    identifier below the supply, and no identifier occurs twice. *)
Definition ids_ok (supply : nat) (l : list Message) : Prop :=
  NoDup (map msg_id l) ∧ Forall (λ m, ∃ i, msg_id m = Some i ∧ (i < supply)%nat) l.

Definition checkpoint_ok (cp : Checkpoint) : Prop :=
  ids_ok (id_supply cp) (generated_post (values cp)) ∧
  ids_ok (id_supply cp) (human_feedback (values cp)).

(** A session whose workflow is parked at the gate: the checkpoint of its
    thread has [feedback_collector] scheduled, waiting for a resumed value. *)
Definition suspended_at_gate (w : World) (sid : string) : Prop :=
  ∃ s cp,
    active_sessions w !! sid = Some s ∧ thread_config s = sid ∧
    checkpointer w !! sid = Some cp ∧
    checkpoint_ok cp ∧ next cp = Some N_feedback_collector.


(** A node is scheduled: the thread can be resumed. *)
Definition pending (cp : Checkpoint) : Prop :=
  next cp = Some N_content_generator ∨ next cp = Some N_feedback_collector.

(** Every stored session is filed under its own thread identifier, and the
    checkpointer has a resumable checkpoint for that thread. *)
Definition sessions_resumable (w : World) : Prop :=
  ∀ sid s, active_sessions w !! sid = Some s →
    thread_config s = sid ∧ ∃ cp, checkpointer w !! sid = Some cp ∧ pending cp.

(** The number of non-overlapping occurrences of the pair [a b], scanned
    from the left. *)
Fixpoint count_pairs (a b : ascii) (s : string) : nat :=
  match s with
  | EmptyString => 0
  | String c r =>
      match r with
      | String d r' =>
          if Ascii.eqb c a && Ascii.eqb d b then S (count_pairs a b r') else count_pairs a b r
      | EmptyString => 0
      end
  end.

(** ** Sample collaborators and sessions

    A scripted collaborator answers its [n]-th call with the [n]-th entry of
    the script and raises once the script is exhausted. *)
Definition scripted_llm (script : list LLMResult) : LLM :=
  λ n _, default (Raises "script exhausted") (script !! n).

Definition sample_llm : LLM :=
  scripted_llm [Returns "draft one"; Returns "draft two"; Returns "draft three"].


Definition sample_request : AIAgentStartRequest :=
  {| topic := "AI in healthcare"; content_length := "short"; writing_style := "" |}.

Definition sample_feedback (f : string) : AIAgentFeedbackRequest :=
  {| session_id := "s1"; feedback := f |}.

(** The scenario of the specification: a session is created, revised once
    and finished. *)
Definition sample_created : World :=
  (start_ai_agent_session sample_llm "s1" 0 0 sample_request empty_world).1.

Definition sample_revised : World :=
  (provide_ai_agent_feedback sample_llm 10 (sample_feedback "make it punchier")
     sample_created).1.

Definition sample_finished : World :=
  (provide_ai_agent_feedback sample_llm 20 (sample_feedback "done") sample_revised).1.


Definition one_hashtag_llm : HashtagLLM := λ _ _ _, Returns "Try #AI today".

Definition raising_analysis_llm : AnalysisLLM := λ _ _ _ _, Raises "quota exceeded".

(** ** Further handlers of [main.py] *)

(** The dictionary [get_session_stats] returns. *)
Record SessionStats : Type := {
  total_active_sessions : Z;
  expired_sessions : Z;
  healthy_sessions : Z;
  session_timeout_minutes : Z;
}.

(** [get_session_stats]: the loop over [active_sessions.values()] counts
    the sessions the sweep's test holds for; nothing is written. *)
Definition get_session_stats (current_time : Z) (w : World) : SessionStats :=
  let total_sessions := Z.of_nat (size (active_sessions w)) in
  let expired_sessions :=
    foldl (λ n session_data, if is_expired current_time session_data then n + 1 else n)
          0 (map_to_list (active_sessions w)).*2 in
  {| total_active_sessions := total_sessions;
     expired_sessions := expired_sessions;
     healthy_sessions := total_sessions - expired_sessions;
     session_timeout_minutes := SESSION_TIMEOUT_MINUTES |}.

Record OptimizationRequest : Type := {
  req_content : string;
  req_topic : string;
  req_content_length : string;
  req_industry : string;
}.

Record HashtagsResponse : Type := {
  hashtags : list string;
  hashtags_success : bool;
  hashtags_message : string;
}.

(** The handler of [/api/optimization/hashtags]: it asks the agent for
    eight hashtags; the agent's operation has its own [except] clause and
    hands the handler no exception to catch.  [findall] is the agent's
    [re.findall]. *)
Definition api_suggest_hashtags_only_with (findall : string → list string)
    (llm : HashtagLLM) (request : OptimizationRequest) : exn + HashtagsResponse :=
  let hashtags :=
    suggest_hashtags_only_with findall llm (req_content request) (req_topic request) 8 in
  inr {| hashtags := hashtags;
         hashtags_success := true;
         hashtags_message := "Hashtag suggestions generated successfully" |}.

(** ** The session handlers repeated in [optimization_agent.py]

    The second half of [optimization_agent.py] declares the session
    handlers once more, over the same compiled workflow.  Its two streaming
    loops look for a node called ["model"]. *)
Module AgentApp.

Fixpoint scan_chunk (items : Chunk) (generated_post : string) : string :=
  match items with
  | [] => generated_post
  | (node_id, value) :: rest =>
      if String.eqb node_id "__interrupt__" then
        match value with
        | V_interrupt _ => generated_post
        | V_update u =>
            match u_generated_post u with
            | Some posts => last_post_content posts generated_post
            | None => generated_post
            end
        end
      else
        match value with
        | V_update u =>
            match u_generated_post u with
            | Some posts =>
                if String.eqb node_id "model"
                then scan_chunk rest (last_post_content posts generated_post)
                else scan_chunk rest generated_post
            | None => scan_chunk rest generated_post
            end
        | V_interrupt _ => scan_chunk rest generated_post
        end
  end.

Definition scan_stream (chunks : list Chunk) (generated_post : string) : string :=
  foldl (λ acc chunk, scan_chunk chunk acc) generated_post chunks.

Definition start_ai_agent_session_try (llm : LLM) (uuid : string)
    (now_created now_activity : Z) (request : AIAgentStartRequest) (w : World)
    : World * (exn + AIAgentResponse) :=
  let thread_config := uuid in
  let initial_state := request in
  match stream_input llm initial_state thread_config w with
  | (w1, inl e) => (w1, inl e)
  | (w1, inr chunks) =>
      let generated_post := scan_stream chunks "" in
      ({| active_sessions :=
            <[uuid := {| thread_config := thread_config;
                         state := initial_state;
                         current_post := generated_post;
                         status := waiting_feedback;
                         created_at := now_created;
                         last_activity := Some now_activity |}]> (active_sessions w1);
          checkpointer := checkpointer w1;
          llm_calls := llm_calls w1 |},
       inr {| start_session_id := uuid;
              start_generated_post := generated_post;
              start_status := waiting_feedback;
              start_success := true;
              start_message :=
                Some "AI agent session started. Content generated, waiting for feedback." |})
  end.

Definition start_ai_agent_session (llm : LLM) (uuid : string)
    (now_created now_activity : Z) (request : AIAgentStartRequest) (w : World)
    : World * (exn + AIAgentResponse) :=
  match start_ai_agent_session_try llm uuid now_created now_activity request w with
  | (w', inl e) =>
      (w', inl (HTTPException 500 ("Error starting AI agent session: " ++ str_exn e)))
  | (w', inr response) => (w', inr response)
  end.

Definition provide_ai_agent_feedback_try (llm : LLM) (now : Z)
    (request : AIAgentFeedbackRequest) (w : World)
    : World * (exn + AIAgentFeedbackResponse) :=
  let session_id := session_id request in
  let feedback := feedback request in
  match active_sessions w !! session_id with
  | None => (w, inl (HTTPException 404 "Session not found"))
  | Some session_data =>
      let thread_config := thread_config session_data in
      if String.eqb (PyStr.lower feedback) "done" then
        ({| active_sessions := alter (set_status completed) session_id (active_sessions w);
            checkpointer := checkpointer w;
            llm_calls := llm_calls w |},
         inr {| fb_session_id := session_id;
                fb_generated_post := Some (current_post session_data);
                fb_status := completed;
                fb_success := true;
                fb_message := Some "Content finalized successfully!" |})
      else
        match stream_resume llm feedback thread_config w with
        | (w1, inl e) => (w1, inl e)
        | (w1, inr chunks) =>
            let generated_post := scan_stream chunks "" in
            ({| active_sessions :=
                  alter (set_last_activity now)
                    session_id
                    (alter (set_current_post generated_post) session_id
                       (active_sessions w1));
                checkpointer := checkpointer w1;
                llm_calls := llm_calls w1 |},
             inr {| fb_session_id := session_id;
                    fb_generated_post := Some generated_post;
                    fb_status := waiting_feedback;
                    fb_success := true;
                    fb_message :=
                      Some "Feedback processed. New content generated, waiting for more feedback." |})
        end
  end.

Definition provide_ai_agent_feedback (llm : LLM) (now : Z)
    (request : AIAgentFeedbackRequest) (w : World)
    : World * (exn + AIAgentFeedbackResponse) :=
  match provide_ai_agent_feedback_try llm now request w with
  | (w', inl e) =>
      (w', inl (HTTPException 500 ("Error processing feedback: " ++ str_exn e)))
  | (w', inr response) => (w', inr response)
  end.

End AgentApp.

(** ** Further observations *)

(** The drafts of a thread's checkpoint, oldest first. *)
Definition drafts (w : World) (thread_id : string) : list string :=
  from_option (λ cp, map content (generated_post (values cp))) [] (checkpointer w !! thread_id).

(** [x in s] for a character. *)
Fixpoint contains_char (x : ascii) (s : string) : bool :=
  match s with
  | EmptyString => false
  | String c r => Ascii.eqb c x || contains_char x r
  end.

(** A chunk the compiled workflow can stream: one entry, named after one of
    the three nodes with that node's update, or the interrupt entry. *)
Definition workflow_chunk (chunk : Chunk) : Prop :=
  match chunk with
  | [(node_id, V_update _)] =>
      node_id = "content_generator" ∨ node_id = "feedback_collector"
      ∨ node_id = "content_finalizer"
  | [(node_id, V_interrupt _)] => node_id = "__interrupt__"
  | _ => False
  end.

(** A second session beside the finished one. *)
Definition sample_two_sessions : World :=
  (start_ai_agent_session sample_llm "s2" 30 30 sample_request sample_finished).1.

Definition two_hashtags_llm : HashtagLLM := λ _ _ _, Returns "Try #AI and #ML_2 today".

Definition sample_content : string :=
  "First paragraph." ++ String "010" (String "010" "Second paragraph.").

(** ** The expiry sweep *)

Section Sweep.

Implicit Types (m : gmap string Session) (ks : list string).

Lemma lookup_foldl_delete ks m k :
  foldl (λ m sid, delete sid m) m ks !! k = if decide (k ∈ ks) then None else m !! k.
Proof.
  revert m. induction ks as [|k' ks IH]; intros m.
  - destruct (decide (k ∈ [])) as [H|_]; [by apply elem_of_nil in H | done].
  - cbn [foldl]. rewrite IH.
    destruct (decide (k ∈ ks)) as [H1|H1]; destruct (decide (k ∈ k' :: ks)) as [H2|H2];
      try done.
    + exfalso. apply H2. by right.
    + apply elem_of_cons in H2 as [->|?]; [apply lookup_delete_eq | done].
    + apply lookup_delete_ne. intros ->. apply H2. by left.
Qed.

Lemma elem_of_expired_ids now m k :
  k ∈ (filter (λ kv, is_expired now kv.2 = true) (map_to_list m)).*1
  ↔ ∃ s, m !! k = Some s ∧ is_expired now s = true.
Proof.
  rewrite list_elem_of_fmap. split.
  - intros [[k' s] [-> H]]. apply list_elem_of_filter in H as [He Hin].
    apply elem_of_map_to_list in Hin. by exists s.
  - intros (s & Hl & He). exists (k, s). split; [done|].
    apply list_elem_of_filter. split; [done|]. by apply elem_of_map_to_list.
Qed.

Lemma cleanup_lookup now m k :
  (cleanup_expired_sessions now m).2 !! k =
  match m !! k with
  | Some s => if is_expired now s then None else Some s
  | None => None
  end.
Proof.
  unfold cleanup_expired_sessions. cbn [snd]. rewrite lookup_foldl_delete.
  destruct (decide _) as [H|H].
  - destruct (proj1 (elem_of_expired_ids now m k) H) as (s & Hk & He).
    by rewrite Hk, He.
  - destruct (m !! k) as [s|] eqn:Hk; [|done].
    destruct (is_expired now s) eqn:He; [|done].
    exfalso. apply H. apply (proj2 (elem_of_expired_ids now m k)). by exists s.
Qed.

Lemma length_filter_split (l : list (string * Session)) (P : string * Session → bool) :
  (length (filter (λ kv, P kv = true) l) + length (filter (λ kv, P kv = false) l))%nat
  = length l.
Proof.
  induction l as [|x l IH]; [done|].
  rewrite !filter_cons. destruct (P x) eqn:Hx.
  - rewrite decide_True by done. rewrite decide_False by done. simpl. lia.
  - rewrite decide_False by done. rewrite decide_True by done. simpl. lia.
Qed.

Lemma cleanup_is_filter now m :
  (cleanup_expired_sessions now m).2 = filter (λ kv, is_expired now kv.2 = false) m.
Proof.
  apply map_eq. intros k. rewrite cleanup_lookup.
  destruct (m !! k) as [s|] eqn:Hk.
  - destruct (is_expired now s) eqn:He.
    + symmetry. apply map_lookup_filter_None. right. intros s' Hs'.
      simpl. rewrite Hk in Hs'. injection Hs' as <-. by rewrite He.
    + symmetry. by apply map_lookup_filter_Some.
  - symmetry. apply map_lookup_filter_None. by left.
Qed.

Lemma size_map_filter (P : string * Session → Prop) `{!∀ x, Decision (P x)} m :
  size (filter P m) = length (filter P (map_to_list m)).
Proof.
  rewrite map_filter_alt. apply map_size_list_to_map.
  eapply sublist_NoDup; [apply (NoDup_fst_map_to_list m)|].
  apply fmap_sublist, sublist_filter.
Qed.

Lemma cleanup_count now m :
  ((cleanup_expired_sessions now m).1 + size (cleanup_expired_sessions now m).2)%nat
  = size m.
Proof.
  rewrite cleanup_is_filter, size_map_filter.
  unfold cleanup_expired_sessions. cbn [fst].
  rewrite length_fmap, <- (length_map_to_list m).
  apply (length_filter_split (map_to_list m) (λ kv, is_expired now kv.2)).
Qed.

Lemma cleanup_twice now m :
  cleanup_expired_sessions now (cleanup_expired_sessions now m).2
  = (0%nat, (cleanup_expired_sessions now m).2).
Proof.
  set (m' := (cleanup_expired_sessions now m).2).
  assert (filter (λ kv, is_expired now kv.2 = true) (map_to_list m') = []) as Hnil.
  { assert (Forall (λ kv, is_expired now kv.2 = false) (map_to_list m')) as Hall.
    { apply Forall_forall. intros [k s] Hin. apply elem_of_map_to_list in Hin.
      unfold m' in Hin. rewrite cleanup_lookup in Hin. simpl.
      destruct (m !! k) as [s0|]; [|done].
      destruct (is_expired now s0) eqn:He; [done|]. by injection Hin as <-. }
    induction Hall as [|x l Hx _ IH]; [done|].
    rewrite filter_cons, decide_False; [done | by rewrite Hx]. }
  unfold cleanup_expired_sessions. by rewrite Hnil.
Qed.

End Sweep.

(** ** The [add_messages] reducer on well-identified lists *)

Section Reducer.

Implicit Types (l left right merged : list Message) (m : Message).

Lemma assign_ids_assigned supply l :
  Forall (λ m, is_Some (msg_id m)) l → assign_ids supply l = (l, supply).
Proof.
  induction 1 as [|m l [i Hi] _ IH]; [done|].
  simpl. by rewrite Hi, IH.
Qed.

Lemma ids_ok_assigned supply l : ids_ok supply l → Forall (λ m, is_Some (msg_id m)) l.
Proof.
  intros [_ H]. eapply Forall_impl; [exact H|].
  intros m (i & Hi & _). by exists i.
Qed.

Lemma left_idx_absent l i pos :
  i ∉ map msg_id l → left_idx_by_id l i pos = None.
Proof.
  revert pos. induction l as [|m l IH]; intros pos Hni; [done|].
  simpl in *. apply not_elem_of_cons in Hni as [Hne Hni].
  rewrite IH by done. by rewrite decide_False.
Qed.

Lemma left_idx_present l j m pos :
  NoDup (map msg_id l) → l !! j = Some m →
  left_idx_by_id l (msg_id m) pos = Some (pos + j)%nat.
Proof.
  revert j pos. induction l as [|m0 l IH]; intros j pos Hnd Hj; [done|].
  simpl in Hnd. apply NoDup_cons in Hnd as [Hni Hnd].
  destruct j as [|j]; simpl in *.
  - injection Hj as ->. rewrite left_idx_absent by done.
    rewrite decide_True by done. f_equal. lia.
  - rewrite (IH j (S pos)) by done. f_equal. lia.
Qed.

Lemma merge_messages_app left merged r1 r2 :
  merge_messages left merged (r1 ++ r2)
  = merge_messages left (merge_messages left merged r1) r2.
Proof.
  revert merged. induction r1 as [|m r1 IH]; intros merged; [done|].
  simpl. destruct (left_idx_by_id left (msg_id m) 0); apply IH.
Qed.

Lemma merge_messages_same left right :
  NoDup (map msg_id left) → right ⊆ left →
  merge_messages left left right = left.
Proof.
  intros Hnd. induction right as [|m right IH]; intros Hsub; [done|].
  simpl. assert (m ∈ left) as Hin by (apply Hsub; left).
  apply list_elem_of_lookup in Hin as [j Hj].
  rewrite (left_idx_present left j m 0 Hnd Hj). simpl.
  rewrite list_insert_id by done.
  apply IH. intros x Hx. apply Hsub. by right.
Qed.

Lemma add_messages_same supply l :
  ids_ok supply l → add_messages supply l l = (l, supply).
Proof.
  intros Hok. unfold add_messages.
  rewrite !assign_ids_assigned by (by eapply ids_ok_assigned).
  rewrite merge_messages_same; [done | apply Hok | done].
Qed.

Lemma fresh_id_absent supply l : ids_ok supply l → Some supply ∉ map msg_id l.
Proof.
  intros [_ H] Hin. apply list_elem_of_fmap in Hin as (m & Hm & Hin).
  rewrite Forall_forall in H. destruct (H m Hin) as (i & Hi & Hlt).
  rewrite Hi in Hm. injection Hm as ->. lia.
Qed.

Lemma add_messages_new supply l c :
  ids_ok supply l →
  add_messages supply l [ {| msg_id := None; content := c |} ]
  = ((l ++ [ {| msg_id := Some supply; content := c |} ])%list, S supply).
Proof.
  intros Hok. unfold add_messages.
  rewrite assign_ids_assigned by (by eapply ids_ok_assigned).
  simpl. by rewrite left_idx_absent by (by apply fresh_id_absent).
Qed.

Lemma assign_ids_app_new supply l c :
  Forall (λ m, is_Some (msg_id m)) l →
  assign_ids supply (l ++ [ {| msg_id := None; content := c |} ])
  = ((l ++ [ {| msg_id := Some supply; content := c |} ])%list, S supply).
Proof.
  induction 1 as [|m l [i Hi] _ IH]; [done|].
  simpl. by rewrite Hi, IH.
Qed.

Lemma add_messages_append supply l c :
  ids_ok supply l →
  add_messages supply l (l ++ [ {| msg_id := None; content := c |} ])
  = ((l ++ [ {| msg_id := Some supply; content := c |} ])%list, S supply).
Proof.
  intros Hok. unfold add_messages.
  rewrite assign_ids_assigned by (by eapply ids_ok_assigned).
  rewrite assign_ids_app_new by (by eapply ids_ok_assigned).
  rewrite merge_messages_app, merge_messages_same; [|apply Hok|done].
  simpl. by rewrite left_idx_absent by (by apply fresh_id_absent).
Qed.

Lemma ids_ok_mono s s' l : (s ≤ s')%nat → ids_ok s l → ids_ok s' l.
Proof.
  intros Hle [Hnd H]. split; [done|].
  eapply Forall_impl; [exact H|]. intros m (i & Hi & Hlt). exists i. split; [done|lia].
Qed.

Lemma ids_ok_snoc s l c :
  ids_ok s l → ids_ok (S s) (l ++ [ {| msg_id := Some s; content := c |} ]).
Proof.
  intros Hok. split.
  - rewrite map_app. simpl. apply NoDup_app. split; [apply Hok|]. split.
    + intros x Hx Hx'. apply list_elem_of_singleton in Hx'. subst x.
      by apply (fresh_id_absent s l).
    + apply NoDup_singleton.
  - apply Forall_app. split.
    + apply (ids_ok_mono s (S s) l); [lia|done].
    + apply Forall_singleton. exists s. simpl. split; [done|lia].
Qed.

Lemma ids_ok_nil s : ids_ok s [].
Proof. split; [apply NoDup_nil_2 | apply Forall_nil_2]. Qed.

End Reducer.

(** ** Runs of the graph *)

Section Runs.

Variable llm : LLM.

Lemma apply_generator_update cp d :
  checkpoint_ok cp →
  apply_update (id_supply cp) (values cp)
    {| u_generated_post := Some [ {| msg_id := None; content := d |} ];
       u_human_feedback := Some (human_feedback (values cp));
       u_should_continue := None |}
  = ({| st_topic := st_topic (values cp);
        st_content_length := st_content_length (values cp);
        st_writing_style := st_writing_style (values cp);
        generated_post :=
          (generated_post (values cp)
             ++ [ {| msg_id := Some (id_supply cp); content := d |} ])%list;
        human_feedback := human_feedback (values cp);
        should_continue := should_continue (values cp) |},
     S (id_supply cp)).
Proof.
  intros [Hgp Hhf]. unfold apply_update. cbn [u_generated_post u_human_feedback u_should_continue].
  rewrite add_messages_new by done.
  rewrite add_messages_same; [done|].
  apply (ids_ok_mono (id_supply cp)); [lia | done].
Qed.

Lemma apply_collector_update cp f :
  checkpoint_ok cp →
  apply_update (id_supply cp) (values cp) (feedback_collector (values cp) f)
  = ({| st_topic := st_topic (values cp);
        st_content_length := st_content_length (values cp);
        st_writing_style := st_writing_style (values cp);
        generated_post := generated_post (values cp);
        human_feedback :=
          (human_feedback (values cp)
             ++ [ {| msg_id := Some (id_supply cp); content := f |} ])%list;
        should_continue := negb (is_done f) |},
     S (id_supply cp)).
Proof.
  intros [Hgp Hhf]. unfold apply_update, feedback_collector.
  cbn [u_generated_post u_human_feedback u_should_continue].
  by rewrite add_messages_append by done.
Qed.

Lemma run_unfold fuel cp resume calls emitted :
  run llm (S fuel) cp resume calls emitted =
  match next cp with
  | None => {| r_checkpoint := cp; r_calls := calls; r_stream := inr emitted |}
  | Some N_content_generator =>
      match content_generator llm calls (values cp) with
      | inl e => {| r_checkpoint := cp; r_calls := S calls; r_stream := inl e |}
      | inr u =>
          let '(st', s') := apply_update (id_supply cp) (values cp) u in
          run llm fuel
              {| values := st'; next := Some N_feedback_collector; id_supply := s' |}
              None (S calls)
              (emitted ++ [[("content_generator", V_update u)]])%list
      end
  | Some N_feedback_collector =>
      match resume with
      | None =>
          {| r_checkpoint := cp; r_calls := calls;
             r_stream :=
               inr (emitted ++
                    [[("__interrupt__",
                       V_interrupt
                         [ {| i_generated_post := generated_post (values cp);
                              i_message := "Provide feedback or type 'done' to finish" |} ])]])%list |}
      | Some user_feedback =>
          let u := feedback_collector (values cp) user_feedback in
          let '(st', s') := apply_update (id_supply cp) (values cp) u in
          run llm fuel
              {| values := st'; next := Some (should_continue_feedback st');
                 id_supply := s' |}
              None calls
              (emitted ++ [[("feedback_collector", V_update u)]])%list
      end
  | Some N_content_finalizer =>
      let u := content_finalizer (values cp) in
      let '(st', s') := apply_update (id_supply cp) (values cp) u in
      run llm fuel
          {| values := st'; next := None; id_supply := s' |}
          resume calls
          (emitted ++ [[("content_finalizer", V_update u)]])%list
  end.
Proof. reflexivity. Qed.

(** A generation followed by the gate: the run a fresh session makes, and
    the second half of every resumed run. *)
Lemma run_generate fuel cp calls emitted :
  checkpoint_ok cp → next cp = Some N_content_generator →
  let r := run llm (S (S fuel)) cp None calls emitted in
  match llm calls (content_generator_prompt (values cp)) with
  | Raises msg =>
      r = {| r_checkpoint := cp; r_calls := S calls; r_stream := inl (LLMError msg) |}
  | Returns d =>
      checkpoint_ok (r_checkpoint r) ∧
      next (r_checkpoint r) = Some N_feedback_collector ∧
      human_feedback (values (r_checkpoint r)) = human_feedback (values cp) ∧
      r_calls r = S calls ∧
      ∃ chunks, r_stream r = inr (emitted ++ chunks)%list ∧
                ∀ post, scan_stream chunks post = d
  end.
Proof.
  intros Hok Hnext r. subst r. rewrite run_unfold, Hnext.
  unfold content_generator.
  destruct (llm calls (content_generator_prompt (values cp))) as [d|msg]; [|done].
  rewrite apply_generator_update by done.
  rewrite run_unfold. cbn [next r_checkpoint r_calls r_stream values human_feedback].
  split; [|split; [done|split; [done|split; [done|]]]].
  - destruct Hok as [Hgp Hhf]. split; cbn [values generated_post human_feedback id_supply].
    + by apply ids_ok_snoc.
    + apply (ids_ok_mono (id_supply cp)); [lia|done].
  - eexists. split; [by rewrite <- app_assoc|].
    intros post. reflexivity.
Qed.

Lemma after_feedback_ok cp f :
  checkpoint_ok cp → is_done f = false →
  checkpoint_ok (after_feedback cp f) ∧
  next (after_feedback cp f) = Some N_content_generator ∧
  human_feedback (values (after_feedback cp f))
    = (human_feedback (values cp)
         ++ [ {| msg_id := Some (id_supply cp); content := f |} ])%list.
Proof.
  intros Hok Hnd. unfold after_feedback. rewrite apply_collector_update by done.
  rewrite Hnd. cbn. split; [|done].
  destruct Hok as [Hgp Hhf]. split; cbn.
  - apply (ids_ok_mono (id_supply cp)); [lia|done].
  - by apply ids_ok_snoc.
Qed.

Lemma run_collect fuel cp f calls emitted :
  next cp = Some N_feedback_collector →
  run llm (S fuel) cp (Some f) calls emitted
  = run llm fuel (after_feedback cp f) None calls
      (emitted ++ [[("feedback_collector",
                     V_update (feedback_collector (values cp) f))]])%list.
Proof.
  intros Hnext. rewrite run_unfold, Hnext. unfold after_feedback. cbv zeta.
  by destruct (apply_update _ _ _).
Qed.

(** A resumed run from the gate with feedback that does not end the
    session: the feedback is recorded, then one generation follows. *)
Lemma run_resume fuel cp f calls :
  checkpoint_ok cp → next cp = Some N_feedback_collector → is_done f = false →
  let r := run llm (S (S (S fuel))) cp (Some f) calls [] in
  map content (human_feedback (values (r_checkpoint r)))
    = (map content (human_feedback (values cp)) ++ [f])%list ∧
  r_calls r = S calls ∧
  checkpoint_ok (r_checkpoint r) ∧
  match llm calls (content_generator_prompt (values (after_feedback cp f))) with
  | Raises msg =>
      r_stream r = inl (LLMError msg) ∧
      next (r_checkpoint r) = Some N_content_generator
  | Returns d =>
      (∃ chunks, r_stream r = inr chunks ∧ scan_stream chunks "" = d) ∧
      next (r_checkpoint r) = Some N_feedback_collector
  end.
Proof.
  intros Hok Hnext Hnd r. subst r. rewrite run_collect by done.
  destruct (after_feedback_ok cp f Hok Hnd) as (Hok1 & Hn1 & Hhf1).
  match goal with |- context [run llm _ _ None calls ?e] => set (em := e) end.
  pose proof (run_generate fuel (after_feedback cp f) calls em Hok1 Hn1) as Hgen.
  cbv zeta in Hgen.
  destruct (llm calls (content_generator_prompt (values (after_feedback cp f))))
    as [d|msg] eqn:Hllm.
  - destruct Hgen as (Hok2 & Hn2 & Hhf2 & Hc2 & chunks & Hs & Hscan).
    rewrite Hhf2, Hhf1, map_app. split; [done|]. split; [done|]. split; [done|].
    split; [|done]. eexists. split; [exact Hs|].
    unfold scan_stream in *. rewrite foldl_app. apply Hscan.
  - rewrite Hgen. cbn [r_checkpoint r_calls r_stream].
    rewrite Hhf1, map_app. done.
Qed.

End Runs.

(** ** The feedback handler *)

Section Feedback.

Variable llm : LLM.

Lemma feedback_not_found now request w :
  active_sessions w !! session_id request = None →
  provide_ai_agent_feedback llm now request w
  = (w, inl (HTTPException 500 "Error processing feedback: 404: Session not found")).
Proof.
  intros Hnone. unfold provide_ai_agent_feedback, provide_ai_agent_feedback_try.
  by rewrite Hnone.
Qed.

Lemma feedback_done now request w s :
  active_sessions w !! session_id request = Some s →
  is_done (feedback request) = true →
  provide_ai_agent_feedback llm now request w
  = ({| active_sessions :=
          alter (set_status completed) (session_id request) (active_sessions w);
        checkpointer := checkpointer w;
        llm_calls := llm_calls w |},
     inr {| fb_session_id := session_id request;
            fb_generated_post := Some (current_post s);
            fb_status := completed;
            fb_success := true;
            fb_message := Some "Content finalized successfully!" |}).
Proof.
  intros Hs Hd. unfold provide_ai_agent_feedback, provide_ai_agent_feedback_try.
  rewrite Hs. unfold is_done in Hd. by rewrite Hd.
Qed.

(** Feedback that does not end the session, on a session parked at the
    gate. *)
Lemma feedback_continue now sid f w s cp :
  active_sessions w !! sid = Some s → thread_config s = sid →
  checkpointer w !! sid = Some cp →
  checkpoint_ok cp → next cp = Some N_feedback_collector →
  is_done f = false →
  let out := provide_ai_agent_feedback llm now {| session_id := sid; feedback := f |} w in
  feedback_history out.1 sid = (feedback_history w sid ++ [f])%list ∧
  llm_calls out.1 = S (llm_calls w) ∧
  match llm (llm_calls w) (content_generator_prompt (values (after_feedback cp f))) with
  | Raises msg =>
      out.2 = inl (HTTPException 500 ("Error processing feedback: " ++ msg)) ∧
      active_sessions out.1 = active_sessions w
  | Returns d =>
      out.2 = inr {| fb_session_id := sid;
                     fb_generated_post := Some d;
                     fb_status := waiting_feedback;
                     fb_success := true;
                     fb_message :=
                       Some "Feedback processed. New content generated, waiting for more feedback." |} ∧
      active_sessions out.1
        = <[sid := set_last_activity now (set_current_post d s)]> (active_sessions w) ∧
      suspended_at_gate out.1 sid
  end.
Proof.
  intros Hs Htc Hcp Hok Hnext Hnd out. subst out.
  unfold provide_ai_agent_feedback, provide_ai_agent_feedback_try.
  cbn [session_id feedback]. rewrite Hs. unfold is_done in Hnd. rewrite Hnd.
  unfold stream_resume. rewrite Htc, Hcp.
  pose proof (run_resume llm 22 cp f (llm_calls w) Hok Hnext Hnd) as Hrun.
  cbv zeta in Hrun. change (S (S (S 22))) with recursion_limit in Hrun.
  destruct Hrun as (Hhist & Hcalls & Hok' & Hres).
  set (r := run llm recursion_limit cp (Some f) (llm_calls w) []) in *.
  destruct (llm (llm_calls w) (content_generator_prompt (values (after_feedback cp f))))
    as [d|msg].
  - destruct Hres as [(chunks & Hstream & Hscan) Hnext'].
    rewrite Hstream. cbn [fst snd active_sessions checkpointer llm_calls].
    split; [|split; [done|split; [by rewrite Hscan|split]]].
    + unfold feedback_history. cbn [checkpointer].
      by rewrite lookup_insert_eq, Hcp.
    + rewrite Hscan. apply map_eq. intros k.
      destruct (decide (k = sid)) as [->|Hne].
      * rewrite lookup_insert_eq, !lookup_alter_eq, Hs. done.
      * by rewrite lookup_insert_ne, !lookup_alter_ne by done.
    + exists (set_last_activity now (set_current_post (scan_stream chunks "") s)),
             (r_checkpoint r).
      cbn [active_sessions checkpointer].
      rewrite !lookup_alter_eq, Hs, lookup_insert_eq. done.
  - destruct Hres as [Hstream Hnext'].
    rewrite Hstream. cbn [fst snd active_sessions checkpointer llm_calls str_exn].
    split; [|done].
    unfold feedback_history. cbn [checkpointer].
    by rewrite lookup_insert_eq, Hcp.
Qed.

End Feedback.

(** ** Session creation and runs of submissions *)

Section Sessions.

Variable llm : LLM.

Lemma input_checkpoint_fresh request :
  checkpoint_ok (input_checkpoint None request) ∧
  next (input_checkpoint None request) = Some N_content_generator ∧
  human_feedback (values (input_checkpoint None request)) = [].
Proof.
  split; [|done]. split; cbn [input_checkpoint values generated_post human_feedback
                               id_supply from_option]; apply ids_ok_nil.
Qed.

Lemma start_fresh uuid now_created now_activity request w :
  checkpointer w !! uuid = None →
  let out := start_ai_agent_session llm uuid now_created now_activity request w in
  match llm (llm_calls w)
            {| p_topic := topic request; p_content_length := content_length request;
               p_writing_style := writing_style request; p_feedback := None |} with
  | Raises msg =>
      out.2 = inl (HTTPException 500 ("Error starting AI agent session: " ++ msg)) ∧
      active_sessions out.1 = active_sessions w
  | Returns d =>
      out.2 = inr {| start_session_id := uuid;
                     start_generated_post := d;
                     start_status := waiting_feedback;
                     start_success := true;
                     start_message :=
                       Some "AI agent session started. Content generated, waiting for feedback." |} ∧
      active_sessions out.1
        = <[uuid := {| thread_config := uuid; state := request; current_post := d;
                       status := waiting_feedback; created_at := now_created;
                       last_activity := Some now_activity |}]> (active_sessions w) ∧
      suspended_at_gate out.1 uuid ∧
      feedback_history out.1 uuid = []
  end.
Proof.
  intros Hfresh out. subst out.
  unfold start_ai_agent_session, start_ai_agent_session_try, stream_input.
  rewrite Hfresh.
  destruct (input_checkpoint_fresh request) as (Hok & Hnext & Hhf).
  pose proof (run_generate llm 23 (input_checkpoint None request) (llm_calls w) []
                Hok Hnext) as Hgen.
  cbv zeta in Hgen. change (S (S 23)) with recursion_limit in Hgen.
  change (content_generator_prompt (values (input_checkpoint None request)))
    with {| p_topic := topic request; p_content_length := content_length request;
            p_writing_style := writing_style request; p_feedback := None |} in Hgen.
  set (r := run llm recursion_limit (input_checkpoint None request) None (llm_calls w) [])
    in *.
  destruct (llm (llm_calls w) _) as [d|msg].
  - destruct Hgen as (Hok' & Hnext' & Hhf' & Hcalls & chunks & Hstream & Hscan).
    rewrite Hstream. cbn [fst snd active_sessions checkpointer llm_calls app].
    rewrite Hscan. split; [done|]. split; [done|]. split.
    + eexists _, (r_checkpoint r). cbn [active_sessions checkpointer].
      rewrite !lookup_insert_eq. done.
    + unfold feedback_history. cbn [checkpointer].
      rewrite lookup_insert_eq. cbn [from_option]. by rewrite Hhf', Hhf.
  - rewrite Hgen. done.
Qed.

(** One successful submission on a parked session keeps it parked and
    extends the history by the feedback unless it is the terminal marker. *)
Lemma submit_step now sid f w w' resp :
  suspended_at_gate w sid →
  provide_ai_agent_feedback llm now {| session_id := sid; feedback := f |} w
    = (w', inr resp) →
  suspended_at_gate w' sid ∧
  feedback_history w' sid
    = (feedback_history w sid ++ (if is_done f then [] else [f]))%list.
Proof.
  intros (s & cp & Hs & Htc & Hcp & Hok & Hnext) Hrun.
  destruct (is_done f) eqn:Hd.
  - rewrite (feedback_done llm now {| session_id := sid; feedback := f |} w s Hs Hd)
      in Hrun.
    injection Hrun as <- <-. rewrite app_nil_r. split; [|done].
    exists (set_status completed s), cp. cbn [active_sessions checkpointer session_id].
    rewrite lookup_alter_eq, Hs. done.
  - pose proof (feedback_continue llm now sid f w s cp Hs Htc Hcp Hok Hnext Hd) as H.
    cbv zeta in H. rewrite Hrun in H. cbn [fst snd] in H.
    destruct H as (Hhist & _ & Hres).
    destruct (llm (llm_calls w) _) as [d|msg].
    + destruct Hres as (_ & _ & Hgate). done.
    + destruct Hres as [Hres _]. discriminate.
Qed.

Lemma submit_all_history sid submissions w w' :
  suspended_at_gate w sid →
  submit_all llm sid submissions w = Some w' →
  suspended_at_gate w' sid ∧
  feedback_history w' sid
    = (feedback_history w sid
         ++ filter (λ f, is_done f = false) (map snd submissions))%list.
Proof.
  revert w. induction submissions as [|[now f] rest IH]; intros w Hgate Hall.
  - injection Hall as <-. by rewrite app_nil_r.
  - simpl in Hall.
    destruct (provide_ai_agent_feedback llm now _ w) as [w1 [e|resp]] eqn:Hrun;
      [discriminate|].
    destruct (submit_step now sid f w w1 resp Hgate Hrun) as [Hgate1 Hhist1].
    destruct (IH w1 Hgate1 Hall) as [Hgate' Hhist'].
    split; [done|]. rewrite Hhist', Hhist1, <- app_assoc. f_equal.
    cbn [map snd]. rewrite filter_cons.
    destruct (is_done f); [by rewrite decide_False | by rewrite decide_True].
Qed.

End Sessions.

(** ** Failed operations *)

Section Failures.

Variable llm : LLM.





End Failures.

(** ** What every reachable process state satisfies *)

Section Reachable.

Variable llm : LLM.

Lemma apply_update_should_continue supply st u :
  should_continue (apply_update supply st u).1
  = default (should_continue st) (u_should_continue u).
Proof.
  unfold apply_update.
  destruct (match u_generated_post u with Some _ => _ | None => _ end) as [gp s1].
  destruct (match u_human_feedback u with Some _ => _ | None => _ end) as [hf s2].
  done.
Qed.

Lemma run_pending fuel cp resume calls emitted :
  pending cp →
  (∀ f, resume = Some f → is_done f = false) →
  pending (r_checkpoint (run llm fuel cp resume calls emitted)).
Proof.
  revert cp resume calls emitted.
  induction fuel as [|fuel IH]; intros cp resume calls emitted Hp Hres; [done|].
  rewrite run_unfold. destruct Hp as [Hn|Hn]; rewrite Hn.
  - destruct (content_generator llm calls (values cp)) as [e|u]; [by left|].
    destruct (apply_update _ _ u) as [st' s']. apply IH; [by right | by intros f [=]].
  - destruct resume as [f|]; [|by right].
    cbv zeta.
    pose proof (apply_update_should_continue (id_supply cp) (values cp)
                  (feedback_collector (values cp) f)) as Hsc.
    destruct (apply_update _ _ _) as [st' s']. cbn [fst] in Hsc.
    apply IH; [|done]. left. cbn [next]. unfold should_continue_feedback.
    rewrite Hsc. cbn. fold (is_done f). by rewrite (Hres f eq_refl).
Qed.

Lemma start_resumable uuid t1 t2 request w :
  checkpointer w !! uuid = None → sessions_resumable w →
  sessions_resumable (start_ai_agent_session llm uuid t1 t2 request w).1.
Proof.
  intros Hfresh Hinv.
  unfold start_ai_agent_session, start_ai_agent_session_try, stream_input.
  rewrite Hfresh.
  set (r := run llm recursion_limit (input_checkpoint None request) None (llm_calls w) []).
  assert (pending (r_checkpoint r)) as Hp.
  { apply run_pending; [by left | done]. }
  assert (∀ sid s, active_sessions w !! sid = Some s → sid ≠ uuid) as Hne.
  { intros sid s Hs ->. destruct (Hinv _ _ Hs) as [_ (cp & Hcp & _)]. congruence. }
  destruct (r_stream r) as [e|chunks]; cbn [fst]; intros sid s Hs;
    cbn [active_sessions checkpointer] in *.
  - destruct (Hinv _ _ Hs) as [Htc (cp & Hcp & Hpc)]. split; [done|].
    exists cp. rewrite lookup_insert_ne; [done|]. intros ->. by apply (Hne _ _ Hs).
  - destruct (decide (sid = uuid)) as [->|Hd].
    + rewrite lookup_insert_eq in Hs. injection Hs as <-. split; [done|].
      exists (r_checkpoint r). by rewrite lookup_insert_eq.
    + rewrite lookup_insert_ne in Hs by done.
      destruct (Hinv _ _ Hs) as [Htc (cp & Hcp & Hpc)]. split; [done|].
      exists cp. by rewrite lookup_insert_ne.
Qed.

Lemma feedback_resumable now request w :
  sessions_resumable w →
  sessions_resumable (provide_ai_agent_feedback llm now request w).1.
Proof.
  intros Hinv.
  unfold provide_ai_agent_feedback, provide_ai_agent_feedback_try.
  destruct (active_sessions w !! session_id request) as [s0|] eqn:Hs0; [|done].
  destruct (Hinv _ _ Hs0) as [Htc0 (cp0 & Hcp0 & Hp0)].
  destruct (String.eqb (PyStr.lower (feedback request)) "done") eqn:Hd.
  - cbn [fst]. intros sid s Hs. cbn [active_sessions checkpointer] in *.
    destruct (decide (sid = session_id request)) as [->|Hne].
    + rewrite lookup_alter_eq, Hs0 in Hs. injection Hs as <-.
      split; [done|]. by exists cp0.
    + rewrite lookup_alter_ne in Hs by done. by apply Hinv.
  - unfold stream_resume. rewrite Htc0, Hcp0.
    set (r := run llm recursion_limit cp0 (Some (feedback request)) (llm_calls w) []).
    assert (pending (r_checkpoint r)) as Hp.
    { apply run_pending; [done|]. intros f [= <-]. exact Hd. }
    destruct (r_stream r) as [e|chunks]; cbn [fst]; intros sid s Hs;
      cbn [active_sessions checkpointer] in *.
    + destruct (decide (sid = session_id request)) as [->|Hne].
      * rewrite Hs0 in Hs. injection Hs as <-. split; [done|].
        exists (r_checkpoint r). by rewrite lookup_insert_eq.
      * rewrite lookup_insert_ne by done. by apply Hinv.
    + destruct (decide (sid = session_id request)) as [->|Hne].
      * rewrite !lookup_alter_eq, Hs0 in Hs. injection Hs as <-.
        split; [done|]. exists (r_checkpoint r). by rewrite lookup_insert_eq.
      * rewrite !lookup_alter_ne in Hs by done.
        rewrite lookup_insert_ne by done. by apply Hinv.
Qed.

Lemma reachable_resumable w : reachable llm w → sessions_resumable w.
Proof.
  induction 1 as [|uuid t1 t2 request w Hr IH Hfresh|now request w Hr IH
                  |sid w Hr IH|now w Hr IH].
  - intros sid s Hs. cbn [empty_world active_sessions] in Hs.
    by rewrite lookup_empty in Hs.
  - by apply start_resumable.
  - by apply feedback_resumable.
  - unfold delete_ai_agent_session.
    destruct (active_sessions w !! sid) as [s0|] eqn:Hs0; [|done].
    cbn [fst]. intros k s Hs. cbn [active_sessions checkpointer] in *.
    apply lookup_delete_Some in Hs as [_ Hs]. by apply IH.
  - unfold manual_cleanup_sessions.
    destruct (cleanup_expired_sessions now (active_sessions w)) as [n m'] eqn:Hc.
    cbn [fst]. intros k s Hs. cbn [active_sessions checkpointer] in *.
    assert (m' = (cleanup_expired_sessions now (active_sessions w)).2) as ->
      by (by rewrite Hc).
    rewrite cleanup_lookup in Hs.
    destruct (active_sessions w !! k) as [s1|] eqn:Hk; [|done].
    destruct (is_expired now s1); [done|]. injection Hs as <-. by apply IH.
Qed.

End Reachable.

(** ** The optimization agent *)

Section Optimization.

Lemma length_split2_aux a b cur s :
  length (PyStr.split2_aux a b cur s) = S (count_pairs a b s).
Proof.
  revert cur.
  assert ((∀ cur, length (PyStr.split2_aux a b cur s) = S (count_pairs a b s)) ∧
          (∀ c cur, length (PyStr.split2_aux a b cur (String c s))
                    = S (count_pairs a b (String c s)))) as [H _]; [|exact H].
  induction s as [|d r' [IH1 IH2]].
  - split; intros; reflexivity.
  - split; [intros cur; apply IH2|].
    intros c cur.
    change (PyStr.split2_aux a b cur (String c (String d r')))
      with (if Ascii.eqb c a && Ascii.eqb d b
            then string_of_list_ascii (rev cur) :: PyStr.split2_aux a b [] r'
            else PyStr.split2_aux a b (c :: cur) (String d r')).
    change (count_pairs a b (String c (String d r')))
      with (if Ascii.eqb c a && Ascii.eqb d b
            then S (count_pairs a b r') else count_pairs a b (String d r')).
    destruct (Ascii.eqb c a && Ascii.eqb d b).
    + cbn [length]. by rewrite IH1.
    + apply IH2.
Qed.

Lemma paragraph_count_blank_lines content :
  paragraph_count content = S (count_pairs "010"%char "010"%char content).
Proof. apply length_split2_aux. Qed.

Lemma fallback_hashtags_with_shape m topic :
  fallback_hashtags_with m topic
  = (map (λ word, String "#"%char (str_capitalize m (PyStr.remove_char " "%char word)))
         (take 3 (match topic with
                  | EmptyString => ["content"; "professional"]
                  | String _ _ => str_split m (str_lower m topic)
                  end))
       ++ ["#Content"; "#ProfessionalGrowth"])%list.
Proof.
  unfold fallback_hashtags_with.
  replace (if PyStr.truthy topic then str_split m (str_lower m topic)
           else ["content"; "professional"])
    with (match topic with
          | EmptyString => ["content"; "professional"]
          | String _ _ => str_split m (str_lower m topic)
          end) by (by destruct topic).
  apply take_ge. rewrite length_app, length_map, length_take. cbn [length].
  match goal with |- context [Nat.min 3 ?n] => pose proof (Nat.le_min_l 3 n) end. lia.
Qed.

Lemma is_hashtag_string l :
  l ≠ [] →
  is_hashtag (String "#"%char (string_of_list_ascii l)) = forallb PyStr.is_word l.
Proof.
  destruct l as [|d r]; [done|]. intros _.
  cbn [string_of_list_ascii is_hashtag].
  by rewrite list_ascii_of_string_of_list_ascii.
Qed.

Lemma emit_hashtag_ok acc :
  forallb PyStr.is_word acc = true →
  Forall (λ s, is_hashtag s = true) (emit_hashtag (Some acc)).
Proof.
  intros Hw. destruct acc as [|c acc]; [by apply Forall_nil_2|].
  cbn [emit_hashtag]. apply Forall_singleton.
  rewrite is_hashtag_string.
  - apply forallb_forall. intros x Hx. apply in_rev in Hx.
    by apply (proj1 (forallb_forall _ _) Hw).
  - cbn [rev]. intros Heq. by apply app_eq_nil in Heq as [_ ?].
Qed.

Lemma findall_hashtags_aux_ok cur text :
  (∀ acc, cur = Some acc → forallb PyStr.is_word acc = true) →
  Forall (λ s, is_hashtag s = true) (findall_hashtags_aux cur text).
Proof.
  revert cur. induction text as [|c r IH]; intros cur Hcur.
  - destruct cur as [acc|]; [by apply emit_hashtag_ok, Hcur | by apply Forall_nil_2].
  - assert (∀ acc, open_hashtag c = Some acc → forallb PyStr.is_word acc = true) as Hopen.
    { unfold open_hashtag. intros acc. destruct (Ascii.eqb c "#"); [|done].
      by intros [= <-]. }
    cbn [findall_hashtags_aux]. destruct cur as [acc|]; [|by apply IH].
    destruct (PyStr.is_word c) eqn:Hc.
    + apply IH. intros acc' [= <-]. cbn [forallb]. rewrite Hc. by apply Hcur.
    + apply Forall_app. split; [by apply emit_hashtag_ok, Hcur | by apply IH].
Qed.

Lemma findall_hashtags_ok text :
  Forall (λ s, is_hashtag s = true) (findall_hashtags text).
Proof. by apply findall_hashtags_aux_ok. Qed.

Lemma slice_to_nonneg {A} (l : list A) count :
  0 ≤ count → slice_to l count = take (Z.to_nat count) l.
Proof. intros H. unfold slice_to. by rewrite (proj2 (Z.leb_le 0 count) H). Qed.

Lemma Forall_slice_to {A} (P : A → Prop) (l : list A) count :
  Forall P l → Forall P (slice_to l count).
Proof. intros H. unfold slice_to. destruct (0 <=? count); by apply Forall_take. Qed.

End Optimization.

(** * The properties of the specification *)

(** ** Feedback history *)

(** C1, as the code has it: after a successful create on a fresh identifier
    and a run of successful feedback submissions on that session, the
    feedback history is exactly the submissions that are not the terminal
    marker, in order; its length is the number of submissions minus the
    number of terminal markers among them. *)
Theorem feedback_history_after_submissions
    (llm : LLM) (uuid : string) (now_created now_activity : Z)
    (request : AIAgentStartRequest) (w0 w1 w : World) (resp : AIAgentResponse)
    (submissions : list (Z * string)) :
  checkpointer w0 !! uuid = None →
  start_ai_agent_session llm uuid now_created now_activity request w0 = (w1, inr resp) →
  submit_all llm uuid submissions w1 = Some w →
  feedback_history w uuid = filter (λ f, is_done f = false) (map snd submissions) ∧
  (length (feedback_history w uuid)
     + length (filter (λ f, is_done f = true) (map snd submissions)))%nat
  = length submissions.
Proof.
  intros Hfresh Hstart Hall.
  pose proof (start_fresh llm uuid now_created now_activity request w0 Hfresh) as H.
  cbv zeta in H. rewrite Hstart in H. cbn [fst snd] in H.
  destruct (llm (llm_calls w0) _) as [d|msg]; [|by destruct H].
  destruct H as (_ & _ & Hgate & Hhist0).
  destruct (submit_all_history llm uuid submissions w1 w Hgate Hall) as [_ Hhist].
  rewrite Hhist0 in Hhist. cbn [app] in Hhist. split; [done|].
  rewrite Hhist, <- (length_map snd submissions).
  generalize (map snd submissions). intros l.
  induction l as [|f l IH]; [done|].
  rewrite !filter_cons. destruct (is_done f).
  - rewrite decide_False by done. rewrite decide_True by done. cbn [length]. lia.
  - rewrite decide_True by done. rewrite decide_False by done. cbn [length]. lia.
Qed.

Lemma feedback_history_after_submissions_witness :
  feedback_history sample_finished "s1"
    = filter (λ f, is_done f = false)
        (map snd [(10, "make it punchier"); (20, "done")]) ∧
  (length (feedback_history sample_finished "s1")
     + length (filter (λ f, is_done f = true)
                 (map snd [(10, "make it punchier"); (20, "done")])))%nat
  = length [(10, "make it punchier"); (20, "done")].
Proof.
  eapply (feedback_history_after_submissions sample_llm "s1" 0 0 sample_request
            empty_world sample_created sample_finished).
  - reflexivity.
  - vm_compute. reflexivity.
  - vm_compute. reflexivity.
Defined.

(** C1 fails as stated: a successful "done" submission leaves the history
    empty, so one successful submission does not give a history of length
    one. *)
Lemma done_submission_not_recorded :
  ∃ w resp,
    provide_ai_agent_feedback sample_llm 10 (sample_feedback "done") sample_created
      = (w, inr resp) ∧
    submit_all sample_llm "s1" [(10, "done")] sample_created = Some w ∧
    feedback_history w "s1" = [] ∧
    length (feedback_history w "s1") ≠ length [(10, "done")].
Proof.
  eexists _, _. split; [vm_compute; reflexivity|].
  split; [vm_compute; reflexivity|]. split; [vm_compute; reflexivity|].
  vm_compute. discriminate.
Qed.

(** ** Completed sessions *)

Lemma world_eta w :
  {| active_sessions := active_sessions w; checkpointer := checkpointer w;
     llm_calls := llm_calls w |} = w.
Proof. by destruct w. Qed.

(** C2, as the code has it: on a session whose status is already completed,
    a submission whose text is the terminal marker returns the stored draft
    and the completed status, changes nothing in the process state (the
    workflow is not invoked) and does not error. *)
Theorem done_on_completed_session
    (llm : LLM) (now : Z) (request : AIAgentFeedbackRequest) (w : World) (s : Session) :
  active_sessions w !! session_id request = Some s →
  status s = completed →
  is_done (feedback request) = true →
  provide_ai_agent_feedback llm now request w
  = (w, inr {| fb_session_id := session_id request;
               fb_generated_post := Some (current_post s);
               fb_status := completed;
               fb_success := true;
               fb_message := Some "Content finalized successfully!" |}).
Proof.
  intros Hs Hst Hd. rewrite (feedback_done llm now request w s Hs Hd).
  assert (alter (set_status completed) (session_id request) (active_sessions w)
          = active_sessions w) as ->.
  { apply map_eq. intros k. destruct (decide (k = session_id request)) as [->|Hne].
    - rewrite lookup_alter_eq, Hs. cbn. f_equal.
      destruct s. cbn in *. by subst.
    - by rewrite lookup_alter_ne. }
  by rewrite world_eta.
Qed.

Lemma done_on_completed_session_witness :
  provide_ai_agent_feedback sample_llm 30 (sample_feedback "DONE") sample_finished
  = (sample_finished,
     inr {| fb_session_id := "s1";
            fb_generated_post := Some "draft two";
            fb_status := completed;
            fb_success := true;
            fb_message := Some "Content finalized successfully!" |}).
Proof.
  eapply (done_on_completed_session sample_llm 30 (sample_feedback "DONE")
            sample_finished
            {| thread_config := "s1"; state := sample_request;
               current_post := "draft two"; status := completed;
               created_at := 0; last_activity := Some 10 |}).
  - vm_compute. reflexivity.
  - reflexivity.
  - reflexivity.
Defined.

(** C2 fails as stated: ordinary feedback on a completed session resumes the
    workflow, calls the generator, replaces the stored draft and reports
    [waiting_feedback]. *)
Lemma completed_session_still_revised :
  (status <$> active_sessions sample_finished !! "s1") = Some completed ∧
  (current_post <$> active_sessions sample_finished !! "s1") = Some "draft two" ∧
  llm_calls sample_finished = 2%nat ∧
  ∃ w,
    provide_ai_agent_feedback sample_llm 30 (sample_feedback "shorter") sample_finished
    = (w, inr {| fb_session_id := "s1";
                 fb_generated_post := Some "draft three";
                 fb_status := waiting_feedback;
                 fb_success := true;
                 fb_message :=
                   Some "Feedback processed. New content generated, waiting for more feedback." |}) ∧
    llm_calls w = 3%nat ∧
    (current_post <$> active_sessions w !! "s1") = Some "draft three".
Proof.
  split; [vm_compute; reflexivity|]. split; [vm_compute; reflexivity|].
  split; [vm_compute; reflexivity|].
  eexists. split; [vm_compute; reflexivity|].
  split; vm_compute; reflexivity.
Qed.

(** ** Unknown sessions *)

(** C3, on the code: feedback for an identifier that is not in the store
    leaves the process state untouched, but the 404 raised by the existence
    check is caught by the handler's own [except Exception] clause and
    reaches the client with status 500; the read and delete handlers report
    404 for the same identifier. *)
Theorem feedback_unknown_session_is_500 (llm : LLM) (now : Z) (f : string) :
  provide_ai_agent_feedback llm now
    {| session_id := "nonexistent-id"; feedback := f |} empty_world
  = (empty_world,
     inl (HTTPException 500 "Error processing feedback: 404: Session not found")) ∧
  get_ai_agent_session "nonexistent-id" empty_world
  = inl (HTTPException 404 "Session not found") ∧
  delete_ai_agent_session "nonexistent-id" empty_world
  = (empty_world, inl (HTTPException 404 "Session not found")).
Proof.
  split; [|done]. by apply feedback_not_found.
Qed.

(** ** The terminal marker *)

(** C4: on a session awaiting feedback, a submission that is the terminal
    marker generates nothing: the response carries the stored draft and the
    completed status, the stored draft is the one stored before, the
    generator is not called and the workflow's checkpoints are untouched. *)
Theorem done_keeps_draft
    (llm : LLM) (now : Z) (request : AIAgentFeedbackRequest) (w : World) (s : Session) :
  active_sessions w !! session_id request = Some s →
  status s = waiting_feedback →
  is_done (feedback request) = true →
  let out := provide_ai_agent_feedback llm now request w in
  (∃ resp, out.2 = inr resp ∧
           fb_generated_post resp = Some (current_post s) ∧
           fb_status resp = completed) ∧
  (current_post <$> active_sessions out.1 !! session_id request) = Some (current_post s) ∧
  (status <$> active_sessions out.1 !! session_id request) = Some completed ∧
  llm_calls out.1 = llm_calls w ∧
  checkpointer out.1 = checkpointer w.
Proof.
  intros Hs _ Hd out. subst out. rewrite (feedback_done llm now request w s Hs Hd).
  cbn [fst snd active_sessions checkpointer llm_calls].
  split; [by eexists|]. rewrite lookup_alter_eq, Hs. done.
Qed.

Lemma done_keeps_draft_witness :
  let out := provide_ai_agent_feedback sample_llm 20 (sample_feedback "done")
               sample_revised in
  (∃ resp, out.2 = inr resp ∧
           fb_generated_post resp = Some "draft two" ∧
           fb_status resp = completed) ∧
  (current_post <$> active_sessions out.1 !! "s1") = Some "draft two" ∧
  (status <$> active_sessions out.1 !! "s1") = Some completed ∧
  llm_calls out.1 = llm_calls sample_revised ∧
  checkpointer out.1 = checkpointer sample_revised.
Proof.
  eapply (done_keeps_draft sample_llm 20 (sample_feedback "done") sample_revised
            {| thread_config := "s1"; state := sample_request;
               current_post := "draft two"; status := waiting_feedback;
               created_at := 0; last_activity := Some 10 |}).
  - vm_compute. reflexivity.
  - reflexivity.
  - reflexivity.
Defined.

Lemma sample_created_at_gate : suspended_at_gate sample_created "s1".
Proof.
  exists {| thread_config := "s1"; state := sample_request;
            current_post := "draft one"; status := waiting_feedback;
            created_at := 0; last_activity := Some 0 |},
         {| values :=
              {| st_topic := "AI in healthcare"; st_content_length := "short";
                 st_writing_style := "";
                 generated_post := [ {| msg_id := Some 0%nat; content := "draft one" |} ];
                 human_feedback := [];
                 should_continue := true |};
            next := Some N_feedback_collector;
            id_supply := 1 |}.
  split; [vm_compute; reflexivity|]. split; [reflexivity|].
  split; [vm_compute; reflexivity|]. split; [|reflexivity].
  split; [|apply ids_ok_nil]. split.
  - apply NoDup_singleton.
  - apply Forall_singleton. exists 0%nat. split; [reflexivity | cbn; lia].
Defined.



(** The scenario with a padded marker: the session continues. *)
Example padded_done_continues :
  (provide_ai_agent_feedback sample_llm 10 (sample_feedback "done ") sample_created).2
  = inr {| fb_session_id := "s1";
           fb_generated_post := Some "draft two";
           fb_status := waiting_feedback;
           fb_success := true;
           fb_message :=
             Some "Feedback processed. New content generated, waiting for more feedback." |}.
Proof. vm_compute. reflexivity. Qed.

(** ** Expired sessions *)

(** C6: the sweep at instant [now] removes exactly the sessions whose age,
    measured from the last activity (or from creation when no activity is
    recorded), strictly exceeds the timeout; every other session is kept as
    it is; the returned number is the number of sessions removed; a second
    sweep at the same instant removes nothing and returns 0. *)
Theorem sweep_removes_exactly_expired (now : Z) (sessions : gmap string Session) :
  let T := timedelta_minutes SESSION_TIMEOUT_MINUTES in
  let swept := cleanup_expired_sessions now sessions in
  (∀ sid,
     swept.2 !! sid =
     match sessions !! sid with
     | Some s =>
         if bool_decide (now - default (created_at s) (last_activity s) > T)
         then None else Some s
     | None => None
     end) ∧
  (swept.1 + size swept.2)%nat = size sessions ∧
  cleanup_expired_sessions now swept.2 = (0%nat, swept.2).
Proof.
  intros T swept. split; [|split].
  - intros sid. apply cleanup_lookup.
  - apply cleanup_count.
  - apply cleanup_twice.
Qed.

(** ** The fallback report *)

(** C7: whenever the generator raises, or returns text without a
    brace-delimited part, or returns text whose brace-delimited part the
    JSON parser rejects, [optimize_content] returns the local fallback
    report, for every content and topic and whatever the Unicode tables
    behind [str.lower], [str.split] and [str.capitalize] are.  In that
    report the suggested hashtags are, in order, a number sign followed by
    the capitalized word for each of the first three words of the
    lower-cased topic (of the words "content" and "professional" when the
    topic is empty), then "#Content" and "#ProfessionalGrowth": between two
    and five hashtags.  The paragraph count is one more than the number of
    blank-line separators in the content, and the overall score is 75. *)
Theorem optimize_content_falls_back
    (m : StrMethods) (llm : AnalysisLLM) (json_loads : string → option json)
    (content topic content_length industry : string) :
  no_structured_record json_loads (llm content topic content_length industry) = true →
  let report :=
    optimize_content_with m llm json_loads content topic content_length industry in
  let words :=
    match topic with
    | EmptyString => ["content"; "professional"]
    | String _ _ => str_split m (str_lower m topic)
    end in
  let suggested :=
    (map (λ word, String "#"%char (str_capitalize m (PyStr.remove_char " "%char word)))
         (take 3 words)
       ++ ["#Content"; "#ProfessionalGrowth"])%list in
  report = _create_fallback_optimization_with m content topic ∧
  (json_get "hashtags" report ≫= json_get "suggested")
    = Some (JList (map JStr suggested)) ∧
  (2 ≤ length suggested ≤ 5)%nat ∧
  (json_get "structure_analysis" report ≫= json_get "paragraph_count")
    = Some (JInt (Z.of_nat (S (count_pairs "010"%char "010"%char content)))) ∧
  json_get "overall_score" report = Some (JInt 75).
Proof.
  intros Hno report words suggested.
  assert (report = _create_fallback_optimization_with m content topic) as ->.
  { subst report. unfold optimize_content_with. unfold no_structured_record in Hno.
    destruct (llm content topic content_length industry) as [text|msg]; [|done].
    destruct (search_braces text) as [js|]; [|done].
    by destruct (json_loads js). }
  split; [done|]. split; [|split; [|split; [|done]]].
  - cbn. by rewrite fallback_hashtags_with_shape.
  - subst suggested. rewrite length_app, length_map, length_take. cbn [length].
    pose proof (Nat.le_min_l 3 (length words)). lia.
  - cbn. unfold paragraph_count, PyStr.split2. by rewrite length_split2_aux.
Qed.

Lemma optimize_content_falls_back_witness :
  let report :=
    optimize_content_with ascii_methods raising_analysis_llm (λ _, None)
      sample_content "AI in healthcare today" "medium" "general" in
  report = _create_fallback_optimization_with ascii_methods sample_content
             "AI in healthcare today" ∧
  (json_get "hashtags" report ≫= json_get "suggested")
    = Some (JList [JStr "#Ai"; JStr "#In"; JStr "#Healthcare";
                   JStr "#Content"; JStr "#ProfessionalGrowth"]) ∧
  (2 ≤ 5 ≤ 5)%nat ∧
  (json_get "structure_analysis" report ≫= json_get "paragraph_count")
    = Some (JInt 2) ∧
  json_get "overall_score" report = Some (JInt 75).
Proof.
  apply (optimize_content_falls_back ascii_methods raising_analysis_llm (λ _, None)
           sample_content "AI in healthcare today" "medium" "general").
  reflexivity.
Defined.

(** ** Status and resumption token *)

Lemma sample_finished_reachable : reachable sample_llm sample_finished.
Proof.
  unfold sample_finished, sample_revised, sample_created.
  apply reach_feedback, reach_feedback, reach_start; [apply reach_empty | reflexivity].
Defined.

(** C8, as the code has it: every session of a reachable process state
    holds a live resumption token, whatever its status.  A session awaiting
    feedback therefore always has its token; a completed session has it too,
    because completing a session only rewrites the status field. *)
Theorem reachable_sessions_hold_token
    (llm : LLM) (w : World) (sid : string) (s : Session) :
  reachable llm w →
  active_sessions w !! sid = Some s →
  holds_live_token w s = true.
Proof.
  intros Hr Hs. destruct (reachable_resumable llm w Hr sid s Hs) as [Htc (cp & Hcp & Hp)].
  unfold holds_live_token. rewrite Htc, Hcp. by destruct Hp as [-> | ->].
Qed.

Lemma reachable_sessions_hold_token_witness :
  holds_live_token sample_finished
    {| thread_config := "s1"; state := sample_request;
       current_post := "draft two"; status := completed;
       created_at := 0; last_activity := Some 10 |} = true.
Proof.
  apply (reachable_sessions_hold_token sample_llm sample_finished "s1").
  - exact sample_finished_reachable.
  - vm_compute. reflexivity.
Defined.

(** C8 fails as stated: after create, one revision and "done", the session
    is reachable, its status is completed and its token is still live. *)
Lemma completed_session_keeps_token :
  reachable sample_llm sample_finished ∧
  ∃ s, active_sessions sample_finished !! "s1" = Some s ∧
       status s = completed ∧
       holds_live_token sample_finished s = true.
Proof.
  split; [exact sample_finished_reachable|].
  eexists. split; [vm_compute; reflexivity|]. split; vm_compute; reflexivity.
Qed.

(** ** Failed generations *)





(** ** Hashtag suggestions *)

(** C10, as the code has it: for a requested count of at least one, the
    operation returns a non-empty list: the first [count] tokens that
    [re.findall] finds in the generator's text when there are any, three
    fixed hashtags when there are none, and five fixed hashtags when the
    generator raises.  So whatever holds of every token [re.findall] returns
    and of the fixed hashtags, as matching the pattern does, holds of every
    string returned. *)
Theorem suggest_hashtags_only_positive_count
    (findall : string → list string) (shape : string → Prop)
    (llm : HashtagLLM) (content topic : string) (count : Z) :
  1 ≤ count →
  (∀ text, Forall shape (findall text)) →
  Forall shape ["#Content"; "#Professional"; "#Growth"; "#Success"; "#Business"] →
  let hashtags := suggest_hashtags_only_with findall llm content topic count in
  hashtags ≠ [] ∧
  Forall shape hashtags ∧
  match llm content topic count with
  | Raises _ =>
      hashtags = ["#Content"; "#Professional"; "#Growth"; "#Success"; "#Business"]
  | Returns response_content =>
      match findall response_content with
      | [] => hashtags = ["#Content"; "#Professional"; "#Growth"]
      | found =>
          hashtags = take (Z.to_nat count) found ∧
          Z.of_nat (length hashtags) ≤ count
      end
  end.
Proof.
  intros Hc Hfind Hdef hashtags. subst hashtags. unfold suggest_hashtags_only_with.
  destruct (llm content topic count) as [text|msg].
  - pose proof (Hfind text) as Hall.
    destruct (findall text) as [|h found] eqn:Hf.
    + split; [done|]. split; [|done]. exact (Forall_take shape 3%nat _ Hdef).
    + rewrite slice_to_nonneg by lia. split; [|split; [by apply Forall_take|split; [done|]]].
      * destruct (Z.to_nat count) as [|n] eqn:Hn; [lia|done].
      * rewrite length_take. lia.
  - done.
Qed.

Lemma suggest_hashtags_only_positive_count_witness :
  let hashtags :=
    suggest_hashtags_only_with findall_hashtags two_hashtags_llm "post" "AI" 1 in
  hashtags ≠ [] ∧
  Forall (λ h, is_hashtag h = true) hashtags ∧
  (hashtags = take (Z.to_nat 1) ["#AI"; "#ML_2"] ∧ Z.of_nat (length hashtags) ≤ 1).
Proof.
  apply (suggest_hashtags_only_positive_count findall_hashtags (λ h, is_hashtag h = true)
           two_hashtags_llm "post" "AI" 1).
  - lia.
  - apply findall_hashtags_ok.
  - by repeat constructor.
Defined.

(** The sample generator text holds two tokens; the first is returned for a
    count of one. *)
Example first_hashtag_of_two :
  suggest_hashtags_only_with findall_hashtags two_hashtags_llm "post" "AI" 1 = ["#AI"].
Proof. reflexivity. Qed.

(** C10 fails as stated: with a requested count of zero and a generator
    text that contains a hashtag, the operation returns the empty list. *)
Lemma zero_count_gives_no_hashtags :
  findall_hashtags "Try #AI today" = ["#AI"] ∧
  suggest_hashtags_only one_hashtag_llm "post" "AI" 0 = [].
Proof. split; reflexivity. Qed.

(** * Further properties of the code *)

(** ** Statistics and the sweep *)

Lemma count_expired_foldl now (l : list Session) (n : Z) :
  foldl (λ n session_data, if is_expired now session_data then n + 1 else n) n l
  = n + Z.of_nat (length (filter (λ s, is_expired now s = true) l)).
Proof.
  revert n. induction l as [|s l IH]; intros n; [cbn; lia|].
  cbn [foldl]. rewrite IH, filter_cons. destruct (is_expired now s).
  - rewrite decide_True by done. cbn [length]. lia.
  - rewrite decide_False by done. lia.
Qed.

Lemma length_filter_snd now (l : list (string * Session)) :
  length (filter (λ s, is_expired now s = true) l.*2)
  = length (filter (λ kv, is_expired now kv.2 = true) l).
Proof.
  induction l as [|[k s] l IH]; [done|].
  cbn [fmap list_fmap snd]. rewrite !filter_cons. cbn [snd].
  destruct (is_expired now s).
  - rewrite !decide_True by done. cbn [length]. by rewrite IH.
  - rewrite !decide_False by done. exact IH.
Qed.

Lemma stats_expired_count now w :
  expired_sessions (get_session_stats now w)
  = Z.of_nat (cleanup_expired_sessions now (active_sessions w)).1.
Proof.
  unfold get_session_stats, cleanup_expired_sessions.
  cbn [expired_sessions fst]. rewrite count_expired_foldl, length_filter_snd, length_fmap.
  lia.
Qed.

Lemma is_expired_mono now now' s :
  now ≤ now' → is_expired now s = true → is_expired now' s = true.
Proof.
  unfold is_expired. intros Hle H. apply bool_decide_eq_true in H.
  apply bool_decide_eq_true. lia.
Qed.

(** X1: the statistics agree with the sweep at the same instant: the
    reported number of expired sessions is the number the sweep would
    remove, the number of healthy sessions is the number it would keep, and
    the two add up to the total. *)
Theorem stats_agree_with_sweep (now : Z) (w : World) :
  let stats := get_session_stats now w in
  let swept := cleanup_expired_sessions now (active_sessions w) in
  expired_sessions stats = Z.of_nat swept.1 ∧
  healthy_sessions stats = Z.of_nat (size swept.2) ∧
  total_active_sessions stats = expired_sessions stats + healthy_sessions stats ∧
  0 ≤ healthy_sessions stats ≤ total_active_sessions stats.
Proof.
  intros stats swept.
  pose proof (stats_expired_count now w) as He.
  pose proof (cleanup_count now (active_sessions w)) as Hc.
  fold stats in He. fold swept in He, Hc.
  assert (total_active_sessions stats = Z.of_nat (size (active_sessions w))) as Ht by done.
  assert (healthy_sessions stats = total_active_sessions stats - expired_sessions stats)
    as Hh by done.
  lia.
Qed.

(** X2: right after a sweep the statistics taken at the same instant report
    no expired session: every remaining session is healthy. *)
Theorem stats_after_sweep (now : Z) (w : World) :
  let stats := get_session_stats now (manual_cleanup_sessions now w).1 in
  expired_sessions stats = 0 ∧
  healthy_sessions stats = total_active_sessions stats ∧
  total_active_sessions stats
    = Z.of_nat (size (active_sessions w))
      - Z.of_nat (manual_cleanup_sessions now w).2.
Proof.
  intros stats.
  pose proof (stats_expired_count now (manual_cleanup_sessions now w).1) as He.
  fold stats in He.
  assert (healthy_sessions stats = total_active_sessions stats - expired_sessions stats)
    as Hh by done.
  assert (total_active_sessions stats
          = Z.of_nat (size (active_sessions (manual_cleanup_sessions now w).1))) as Ht by done.
  pose proof (cleanup_count now (active_sessions w)) as Hc.
  pose proof (cleanup_twice now (active_sessions w)) as H2.
  unfold manual_cleanup_sessions in *.
  destruct (cleanup_expired_sessions now (active_sessions w)) as [n m'] eqn:Hsw.
  cbn [fst snd active_sessions] in *. rewrite H2 in He. cbn [fst] in He. lia.
Qed.

(** X3: sweeps compose along time: a sweep at a later instant after an
    earlier one leaves the same store as the later sweep alone, and the two
    counts add up to the count of the later sweep alone. *)
Theorem sweeps_compose (now now' : Z) (sessions : gmap string Session) :
  now ≤ now' →
  let first := cleanup_expired_sessions now sessions in
  let second := cleanup_expired_sessions now' first.2 in
  let direct := cleanup_expired_sessions now' sessions in
  second.2 = direct.2 ∧ (first.1 + second.1)%nat = direct.1.
Proof.
  intros Hle first second direct.
  assert (second.2 = direct.2) as Heq.
  { apply map_eq. intros k. subst second direct first. rewrite !cleanup_lookup.
    destruct (sessions !! k) as [s|]; [|done].
    destruct (is_expired now s) eqn:He.
    - by rewrite (is_expired_mono now now' s Hle He).
    - done. }
  split; [done|].
  pose proof (cleanup_count now sessions) as H1.
  pose proof (cleanup_count now' first.2) as H2.
  pose proof (cleanup_count now' sessions) as H3.
  fold first in H1. fold second in H2. fold direct in H3. rewrite Heq in H2. lia.
Qed.

Lemma sweeps_compose_witness :
  let first := cleanup_expired_sessions 200000000 (active_sessions sample_two_sessions) in
  let second := cleanup_expired_sessions 320000000 first.2 in
  let direct := cleanup_expired_sessions 320000000 (active_sessions sample_two_sessions) in
  second.2 = direct.2 ∧ (first.1 + second.1)%nat = direct.1.
Proof.
  apply (sweeps_compose 200000000 320000000 (active_sessions sample_two_sessions)).
  lia.
Defined.

(** ** Reading, deleting and creating sessions *)

(** X4: a deleted session is gone: the deletion succeeds, a read or a second
    deletion of the same identifier is answered with 404, every other
    session is untouched, and the thread's checkpoint stays in the
    checkpointer. *)
Theorem delete_then_gone (sid : string) (w : World) (s : Session) :
  active_sessions w !! sid = Some s →
  let out := delete_ai_agent_session sid w in
  out.2 = inr true ∧
  get_ai_agent_session sid out.1 = inl (HTTPException 404 "Session not found") ∧
  delete_ai_agent_session sid out.1
    = (out.1, inl (HTTPException 404 "Session not found")) ∧
  (∀ k, k ≠ sid → active_sessions out.1 !! k = active_sessions w !! k) ∧
  checkpointer out.1 = checkpointer w.
Proof.
  intros Hs out.
  assert (out = ({| active_sessions := delete sid (active_sessions w);
                    checkpointer := checkpointer w;
                    llm_calls := llm_calls w |}, inr true)) as ->.
  { subst out. unfold delete_ai_agent_session. by rewrite Hs. }
  cbn [fst snd]. split; [done|].
  unfold get_ai_agent_session, delete_ai_agent_session.
  cbn [active_sessions checkpointer]. rewrite lookup_delete_eq.
  split; [done|]. split; [done|]. split; [|done].
  intros k Hk. by rewrite lookup_delete_ne.
Qed.

Lemma delete_then_gone_witness :
  let out := delete_ai_agent_session "s1" sample_two_sessions in
  out.2 = inr true ∧
  get_ai_agent_session "s1" out.1 = inl (HTTPException 404 "Session not found") ∧
  delete_ai_agent_session "s1" out.1
    = (out.1, inl (HTTPException 404 "Session not found")) ∧
  (∀ k, k ≠ "s1" → active_sessions out.1 !! k = active_sessions sample_two_sessions !! k) ∧
  checkpointer out.1 = checkpointer sample_two_sessions.
Proof.
  apply (delete_then_gone "s1" sample_two_sessions
           {| thread_config := "s1"; state := sample_request;
              current_post := "draft two"; status := completed;
              created_at := 0; last_activity := Some 10 |}).
  vm_compute. reflexivity.
Defined.

Section MoreSessions.

Variable llm : LLM.

Lemma run_generate_posts fuel cp calls emitted d :
  checkpoint_ok cp → next cp = Some N_content_generator →
  llm calls (content_generator_prompt (values cp)) = Returns d →
  generated_post (values (r_checkpoint (run llm (S (S fuel)) cp None calls emitted)))
  = (generated_post (values cp)
       ++ [ {| msg_id := Some (id_supply cp); content := d |} ])%list.
Proof.
  intros Hok Hnext Hllm. rewrite run_unfold, Hnext.
  unfold content_generator. rewrite Hllm.
  rewrite apply_generator_update by done.
  by rewrite run_unfold.
Qed.

Lemma after_feedback_posts cp f :
  checkpoint_ok cp →
  generated_post (values (after_feedback cp f)) = generated_post (values cp).
Proof.
  intros Hok. unfold after_feedback. by rewrite apply_collector_update.
Qed.

Lemma start_fresh_drafts uuid t1 t2 request w d :
  checkpointer w !! uuid = None →
  llm (llm_calls w)
      {| p_topic := topic request; p_content_length := content_length request;
         p_writing_style := writing_style request; p_feedback := None |} = Returns d →
  let out := start_ai_agent_session llm uuid t1 t2 request w in
  llm_calls out.1 = S (llm_calls w) ∧ drafts out.1 uuid = [d].
Proof.
  intros Hfresh Hllm out. subst out.
  unfold start_ai_agent_session, start_ai_agent_session_try, stream_input.
  rewrite Hfresh.
  destruct (input_checkpoint_fresh request) as (Hok & Hnext & Hhf).
  pose proof (run_generate llm 23 (input_checkpoint None request) (llm_calls w) []
                Hok Hnext) as Hgen.
  pose proof (run_generate_posts 23 (input_checkpoint None request) (llm_calls w) [] d
                Hok Hnext Hllm) as Hposts.
  cbv zeta in Hgen. change (S (S 23)) with recursion_limit in Hgen, Hposts.
  change (content_generator_prompt (values (input_checkpoint None request)))
    with {| p_topic := topic request; p_content_length := content_length request;
            p_writing_style := writing_style request; p_feedback := None |} in Hgen.
  rewrite Hllm in Hgen.
  set (r := run llm recursion_limit (input_checkpoint None request) None (llm_calls w) [])
    in *.
  destruct Hgen as (_ & _ & _ & Hcalls & chunks & Hstream & _).
  rewrite Hstream. cbn [fst snd llm_calls]. split; [done|].
  unfold drafts. cbn [checkpointer]. rewrite lookup_insert_eq. cbn [from_option].
  by rewrite Hposts.
Qed.

Lemma feedback_continue_drafts now sid f w s cp d :
  active_sessions w !! sid = Some s → thread_config s = sid →
  checkpointer w !! sid = Some cp →
  checkpoint_ok cp → next cp = Some N_feedback_collector →
  is_done f = false →
  llm (llm_calls w) (content_generator_prompt (values (after_feedback cp f))) = Returns d →
  drafts (provide_ai_agent_feedback llm now {| session_id := sid; feedback := f |} w).1 sid
  = (drafts w sid ++ [d])%list.
Proof.
  intros Hs Htc Hcp Hok Hnext Hnd Hllm.
  destruct (after_feedback_ok cp f Hok Hnd) as (Hok1 & Hn1 & _).
  assert (generated_post
            (values (r_checkpoint (run llm recursion_limit cp (Some f) (llm_calls w) [])))
          = (generated_post (values cp)
               ++ [ {| msg_id := Some (id_supply (after_feedback cp f)); content := d |} ])%list)
    as Hposts.
  { change recursion_limit with (S (S (S 22))). rewrite run_collect by done.
    rewrite (run_generate_posts 22 (after_feedback cp f) _ _ d Hok1 Hn1 Hllm).
    by rewrite after_feedback_posts. }
  unfold provide_ai_agent_feedback, provide_ai_agent_feedback_try.
  cbn [session_id feedback]. rewrite Hs. unfold is_done in Hnd. rewrite Hnd.
  unfold stream_resume. rewrite Htc, Hcp.
  revert Hposts.
  generalize (run llm recursion_limit cp (Some f) (llm_calls w) []).
  intros r Hposts.
  assert (drafts w sid = map content (generated_post (values cp))) as ->.
  { unfold drafts. by rewrite Hcp. }
  destruct (r_stream r) as [e|chunks]; cbn [fst]; unfold drafts; cbn [checkpointer];
    rewrite lookup_insert_eq; cbn [from_option]; by rewrite Hposts, map_app.
Qed.

End MoreSessions.

(** X5: a session created under a fresh identifier can be read back: the
    read returns the generator's text with status [waiting_feedback]; the
    generator was called exactly once, the thread holds that one draft and
    no feedback, and every other stored session is untouched. *)
Theorem created_session_readable
    (llm : LLM) (uuid : string) (now_created now_activity : Z)
    (request : AIAgentStartRequest) (w : World) (d : string) :
  checkpointer w !! uuid = None →
  llm (llm_calls w)
      {| p_topic := topic request; p_content_length := content_length request;
         p_writing_style := writing_style request; p_feedback := None |} = Returns d →
  let out := start_ai_agent_session llm uuid now_created now_activity request w in
  get_ai_agent_session uuid out.1 = inr (d, waiting_feedback) ∧
  llm_calls out.1 = S (llm_calls w) ∧
  drafts out.1 uuid = [d] ∧
  feedback_history out.1 uuid = [] ∧
  (∀ k, k ≠ uuid → active_sessions out.1 !! k = active_sessions w !! k).
Proof.
  intros Hfresh Hllm out.
  pose proof (start_fresh llm uuid now_created now_activity request w Hfresh) as H.
  pose proof (start_fresh_drafts llm uuid now_created now_activity request w d Hfresh Hllm)
    as Hd.
  cbv zeta in H, Hd. rewrite Hllm in H. fold out in H, Hd.
  destruct H as (_ & Hstore & _ & Hhist). destruct Hd as [Hcalls Hdrafts].
  split; [|split; [done|split; [done|split; [done|]]]].
  - unfold get_ai_agent_session. by rewrite Hstore, lookup_insert_eq.
  - intros k Hk. by rewrite Hstore, lookup_insert_ne.
Qed.

Lemma created_session_readable_witness :
  let out := start_ai_agent_session sample_llm "s1" 0 0 sample_request empty_world in
  get_ai_agent_session "s1" out.1 = inr ("draft one", waiting_feedback) ∧
  llm_calls out.1 = S (llm_calls empty_world) ∧
  drafts out.1 "s1" = ["draft one"] ∧
  feedback_history out.1 "s1" = [] ∧
  (∀ k, k ≠ "s1" → active_sessions out.1 !! k = active_sessions empty_world !! k).
Proof.
  apply (created_session_readable sample_llm "s1" 0 0 sample_request empty_world
           "draft one").
  - reflexivity.
  - reflexivity.
Defined.

(** ** What a feedback submission changes and what it leaves alone *)

Section FeedbackFrame.

Variable llm : LLM.

Lemma feedback_other_session now request w k :
  k ≠ session_id request →
  active_sessions (provide_ai_agent_feedback llm now request w).1 !! k
  = active_sessions w !! k.
Proof.
  intros Hk. unfold provide_ai_agent_feedback, provide_ai_agent_feedback_try.
  destruct (active_sessions w !! session_id request) as [s|]; [|done].
  destruct (String.eqb _ _).
  - cbn [fst active_sessions]. by rewrite lookup_alter_ne.
  - unfold stream_resume.
    destruct (checkpointer w !! thread_config s) as [cp|]; [|].
    + generalize (run llm recursion_limit cp (Some (feedback request)) (llm_calls w) []).
      intros r. destruct (r_stream r); cbn [fst active_sessions]; [done|].
      by rewrite !lookup_alter_ne.
    + done.
Qed.

Lemma feedback_other_thread now request w s k :
  active_sessions w !! session_id request = Some s →
  k ≠ thread_config s →
  checkpointer (provide_ai_agent_feedback llm now request w).1 !! k
  = checkpointer w !! k.
Proof.
  intros Hs Hk. unfold provide_ai_agent_feedback, provide_ai_agent_feedback_try.
  rewrite Hs. destruct (String.eqb _ _); [done|].
  unfold stream_resume.
  destruct (checkpointer w !! thread_config s) as [cp|]; [|done].
  generalize (run llm recursion_limit cp (Some (feedback request)) (llm_calls w) []).
  intros r. destruct (r_stream r); cbn [fst checkpointer]; by rewrite lookup_insert_ne.
Qed.

Lemma feedback_same_session now request w s :
  active_sessions w !! session_id request = Some s →
  ∃ s', active_sessions (provide_ai_agent_feedback llm now request w).1
          !! session_id request = Some s' ∧
        thread_config s' = thread_config s ∧ state s' = state s ∧
        created_at s' = created_at s ∧
        (status s = completed → status s' = completed) ∧
        (is_done (feedback request) = true →
         current_post s' = current_post s ∧ last_activity s' = last_activity s).
Proof.
  intros Hs. unfold provide_ai_agent_feedback, provide_ai_agent_feedback_try.
  rewrite Hs. unfold is_done. destruct (String.eqb _ _).
  - cbn [fst active_sessions]. rewrite lookup_alter_eq, Hs. by eexists.
  - assert (∀ r : RunResult,
              ∃ s', active_sessions
                      (match r_stream r with
                       | inl e =>
                           ({| active_sessions := active_sessions w;
                               checkpointer :=
                                 <[thread_config s := r_checkpoint r]> (checkpointer w);
                               llm_calls := r_calls r |},
                            inl (HTTPException 500
                                   ("Error processing feedback: " ++ str_exn e)))
                       | inr chunks =>
                           ({| active_sessions :=
                                 alter (set_last_activity now) (session_id request)
                                   (alter (set_current_post (scan_stream chunks ""))
                                      (session_id request) (active_sessions w));
                               checkpointer :=
                                 <[thread_config s := r_checkpoint r]> (checkpointer w);
                               llm_calls := r_calls r |},
                            inr {| fb_session_id := session_id request;
                                   fb_generated_post := Some (scan_stream chunks "");
                                   fb_status := waiting_feedback;
                                   fb_success := true;
                                   fb_message :=
                                     Some "Feedback processed. New content generated, waiting for more feedback." |})
                       end : World * (exn + AIAgentFeedbackResponse)).1
                    !! session_id request = Some s' ∧
                    thread_config s' = thread_config s ∧ state s' = state s ∧
                    created_at s' = created_at s ∧
                    (status s = completed → status s' = completed) ∧
                    (false = true →
                     current_post s' = current_post s ∧ last_activity s' = last_activity s))
      as Hall.
    { intros r. destruct (r_stream r); cbn [fst active_sessions].
      - exists s. by rewrite Hs.
      - rewrite !lookup_alter_eq, Hs. by eexists. }
    unfold stream_resume.
    destruct (checkpointer w !! thread_config s) as [cp|].
    + generalize (run llm recursion_limit cp (Some (feedback request)) (llm_calls w) []).
      intros r. destruct (Hall r) as (s' & H & Hrest). exists s'. split; [|done].
      destruct (r_stream r); exact H.
    + cbn [fst]. exists s. by rewrite Hs.
Qed.

Lemma feedback_unknown_stays_unknown now request w :
  active_sessions w !! session_id request = None →
  active_sessions (provide_ai_agent_feedback llm now request w).1 !! session_id request
  = None.
Proof. intros H. by rewrite feedback_not_found. Qed.

(** A successful revision, as seen in the outcome of the handler. *)
Lemma feedback_revision_outcome now request w :
  match (provide_ai_agent_feedback llm now request w).2 with
  | inl _ => True
  | inr resp =>
      fb_status resp = waiting_feedback →
      ∃ s', active_sessions (provide_ai_agent_feedback llm now request w).1
              !! session_id request = Some s' ∧
            last_activity s' = Some now ∧
            fb_generated_post resp = Some (current_post s')
  end.
Proof.
  unfold provide_ai_agent_feedback, provide_ai_agent_feedback_try.
  destruct (active_sessions w !! session_id request) as [s|] eqn:Hs; [|done].
  destruct (String.eqb _ _); [cbn; discriminate|].
  unfold stream_resume.
  destruct (checkpointer w !! thread_config s) as [cp|].
  - generalize (run llm recursion_limit cp (Some (feedback request)) (llm_calls w) []).
    intros r. destruct (r_stream r); [done|].
    cbn [fst snd active_sessions fb_generated_post]. intros _.
    rewrite !lookup_alter_eq, Hs. by eexists.
  - done.
Qed.

End FeedbackFrame.

(** X6: sessions are independent: in a reachable process state, a feedback
    submission for one session, whether it succeeds or fails, changes
    neither the stored record nor the workflow checkpoint of any other
    session. *)
Theorem feedback_leaves_other_sessions
    (llm : LLM) (now : Z) (request : AIAgentFeedbackRequest) (w : World) (k : string) :
  reachable llm w →
  k ≠ session_id request →
  let w' := (provide_ai_agent_feedback llm now request w).1 in
  active_sessions w' !! k = active_sessions w !! k ∧
  checkpointer w' !! k = checkpointer w !! k.
Proof.
  intros Hr Hk w'. subst w'. split; [by apply feedback_other_session|].
  destruct (active_sessions w !! session_id request) as [s|] eqn:Hs.
  - destruct (reachable_resumable llm w Hr _ _ Hs) as [Htc _].
    apply (feedback_other_thread llm now request w s k Hs). by rewrite Htc.
  - by rewrite feedback_not_found.
Qed.

Lemma sample_two_sessions_reachable : reachable sample_llm sample_two_sessions.
Proof.
  unfold sample_two_sessions.
  apply reach_start; [exact sample_finished_reachable | vm_compute; reflexivity].
Defined.

Lemma feedback_leaves_other_sessions_witness :
  let w' := (provide_ai_agent_feedback sample_llm 40 (sample_feedback "shorter")
               sample_two_sessions).1 in
  active_sessions w' !! "s2" = active_sessions sample_two_sessions !! "s2" ∧
  checkpointer w' !! "s2" = checkpointer sample_two_sessions !! "s2".
Proof.
  apply (feedback_leaves_other_sessions sample_llm 40 (sample_feedback "shorter")
           sample_two_sessions "s2").
  - exact sample_two_sessions_reachable.
  - discriminate.
Defined.

(** X7: a feedback submission never adds or removes a session and never
    changes a session's thread, initial request or creation time; a stored
    status that is completed stays completed; and a submission of the
    terminal marker changes neither the stored draft nor the last-activity
    time. *)
Theorem feedback_preserves_sessions
    (llm : LLM) (now : Z) (request : AIAgentFeedbackRequest) (w : World) (k : string) :
  let w' := (provide_ai_agent_feedback llm now request w).1 in
  match active_sessions w !! k with
  | None => active_sessions w' !! k = None
  | Some s =>
      ∃ s', active_sessions w' !! k = Some s' ∧
            thread_config s' = thread_config s ∧ state s' = state s ∧
            created_at s' = created_at s ∧
            (status s = completed → status s' = completed) ∧
            (is_done (feedback request) = true →
             current_post s' = current_post s ∧ last_activity s' = last_activity s)
  end.
Proof.
  intros w'. subst w'. destruct (decide (k = session_id request)) as [->|Hk].
  - destruct (active_sessions w !! session_id request) as [s|] eqn:Hs.
    + by apply feedback_same_session.
    + by apply feedback_unknown_stays_unknown.
  - rewrite (feedback_other_session llm now request w k Hk).
    destruct (active_sessions w !! k) as [s|]; [|done]. by exists s.
Qed.

(** X8: a successful revision refreshes the session's activity time: the
    response's draft is the stored one, and a sweep at any instant no later
    than the timeout after the revision keeps the session as it is. *)
Theorem revision_protects_from_sweep
    (llm : LLM) (now t : Z) (request : AIAgentFeedbackRequest) (w w' : World)
    (resp : AIAgentFeedbackResponse) :
  provide_ai_agent_feedback llm now request w = (w', inr resp) →
  fb_status resp = waiting_feedback →
  t - now ≤ timedelta_minutes SESSION_TIMEOUT_MINUTES →
  ∃ s', active_sessions w' !! session_id request = Some s' ∧
        last_activity s' = Some now ∧
        fb_generated_post resp = Some (current_post s') ∧
        (cleanup_expired_sessions t (active_sessions w')).2 !! session_id request
          = Some s'.
Proof.
  intros Hrun Hst Ht.
  pose proof (feedback_revision_outcome llm now request w) as H.
  rewrite Hrun in H. cbn [fst snd] in H.
  destruct (H Hst) as (s' & Hs' & Hla & Hpost).
  exists s'. split; [done|]. split; [done|]. split; [done|].
  rewrite cleanup_lookup, Hs'.
  assert (is_expired t s' = false) as ->; [|done].
  unfold is_expired, last_activity_or_created. rewrite Hla. cbn [from_option].
  apply bool_decide_eq_false. unfold id. lia.
Qed.

Lemma revision_protects_from_sweep_witness :
  ∃ s', active_sessions sample_revised !! "s1" = Some s' ∧
        last_activity s' = Some 10 ∧
        Some "draft two" = Some (current_post s') ∧
        (cleanup_expired_sessions 300000010 (active_sessions sample_revised)).2 !! "s1"
          = Some s'.
Proof.
  apply (revision_protects_from_sweep sample_llm 10 300000010
           (sample_feedback "make it punchier") sample_created sample_revised
           {| fb_session_id := "s1";
              fb_generated_post := Some "draft two";
              fb_status := waiting_feedback;
              fb_success := true;
              fb_message :=
                Some "Feedback processed. New content generated, waiting for more feedback." |}).
  - vm_compute. reflexivity.
  - reflexivity.
  - vm_compute. discriminate.
Defined.

(** ** Drafts *)

Section Drafts.

Variable llm : LLM.

Lemma submit_step_drafts now sid f w w' resp :
  suspended_at_gate w sid →
  (current_post <$> active_sessions w !! sid) = last (drafts w sid) →
  provide_ai_agent_feedback llm now {| session_id := sid; feedback := f |} w
    = (w', inr resp) →
  (current_post <$> active_sessions w' !! sid) = last (drafts w' sid) ∧
  length (drafts w' sid)
  = (length (drafts w sid) + (if is_done f then 0 else 1))%nat.
Proof.
  intros (s & cp & Hs & Htc & Hcp & Hok & Hnext) Hinv Hrun.
  destruct (is_done f) eqn:Hd.
  - rewrite (feedback_done llm now {| session_id := sid; feedback := f |} w s Hs Hd)
      in Hrun.
    injection Hrun as <- _. cbn [active_sessions session_id].
    rewrite lookup_alter_eq, Hs. rewrite Hs in Hinv.
    split; [exact Hinv | unfold drafts; cbn [checkpointer]; lia].
  - pose proof (feedback_continue llm now sid f w s cp Hs Htc Hcp Hok Hnext Hd) as H.
    pose proof (feedback_continue_drafts llm now sid f w s cp) as Hdr.
    cbv zeta in H. rewrite Hrun in H, Hdr. cbn [fst snd] in H, Hdr.
    destruct H as (_ & _ & Hres).
    destruct (llm (llm_calls w) _) as [d|msg]; [|by destruct Hres].
    destruct Hres as (_ & Hstore & _).
    rewrite (Hdr d Hs Htc Hcp Hok Hnext Hd eq_refl).
    rewrite Hstore, lookup_insert_eq, last_snoc, length_app. cbn [length].
    split; [done|lia].
Qed.

Lemma submit_all_drafts sid submissions w w' :
  suspended_at_gate w sid →
  (current_post <$> active_sessions w !! sid) = last (drafts w sid) →
  submit_all llm sid submissions w = Some w' →
  (current_post <$> active_sessions w' !! sid) = last (drafts w' sid) ∧
  length (drafts w' sid)
  = (length (drafts w sid)
       + length (filter (λ f, is_done f = false) (map snd submissions)))%nat.
Proof.
  revert w. induction submissions as [|[now f] rest IH]; intros w Hgate Hinv Hall.
  - injection Hall as <-. split; [done | cbn; lia].
  - cbn [submit_all] in Hall.
    destruct (provide_ai_agent_feedback llm now _ w) as [w1 [e|resp]] eqn:Hrun;
      [discriminate|].
    destruct (submit_step llm now sid f w w1 resp Hgate Hrun) as [Hgate1 _].
    destruct (submit_step_drafts now sid f w w1 resp Hgate Hinv Hrun) as [Hinv1 Hlen1].
    destruct (IH w1 Hgate1 Hinv1 Hall) as [Hinv' Hlen'].
    split; [done|]. rewrite Hlen', Hlen1. cbn [map snd]. rewrite filter_cons.
    destruct (is_done f).
    + rewrite decide_False by done. lia.
    + rewrite decide_True by done. cbn [length]. lia.
Qed.

End Drafts.

(** X9: the store and the workflow agree on the draft: after a successful
    create under a fresh identifier and any run of successful submissions,
    the stored draft is the last draft of the thread's checkpoint, and the
    thread holds one draft for the create plus one for every submission that
    is not the terminal marker. *)
Theorem stored_draft_is_latest
    (llm : LLM) (uuid : string) (now_created now_activity : Z)
    (request : AIAgentStartRequest) (w0 w1 w : World) (resp : AIAgentResponse)
    (submissions : list (Z * string)) :
  checkpointer w0 !! uuid = None →
  start_ai_agent_session llm uuid now_created now_activity request w0 = (w1, inr resp) →
  submit_all llm uuid submissions w1 = Some w →
  (current_post <$> active_sessions w !! uuid) = last (drafts w uuid) ∧
  length (drafts w uuid)
  = S (length (filter (λ f, is_done f = false) (map snd submissions))).
Proof.
  intros Hfresh Hstart Hall.
  pose proof (start_fresh llm uuid now_created now_activity request w0 Hfresh) as H.
  pose proof (start_fresh_drafts llm uuid now_created now_activity request w0) as Hd.
  cbv zeta in H, Hd. rewrite Hstart in H, Hd. cbn [fst snd] in H, Hd.
  destruct (llm (llm_calls w0) _) as [d|msg]; [|by destruct H].
  destruct H as (_ & Hstore & Hgate & _).
  destruct (Hd d Hfresh eq_refl) as [_ Hdrafts].
  destruct (submit_all_drafts llm uuid submissions w1 w Hgate) as [Hinv Hlen]; [|done|].
  - by rewrite Hstore, lookup_insert_eq, Hdrafts.
  - split; [done|]. by rewrite Hlen, Hdrafts.
Qed.

Lemma stored_draft_is_latest_witness :
  (current_post <$> active_sessions sample_finished !! "s1")
    = last (drafts sample_finished "s1") ∧
  length (drafts sample_finished "s1")
  = S (length (filter (λ f, is_done f = false)
                 (map snd [(10, "make it punchier"); (20, "done")]))).
Proof.
  eapply (stored_draft_is_latest sample_llm "s1" 0 0 sample_request
            empty_world sample_created sample_finished).
  - reflexivity.
  - vm_compute. reflexivity.
  - vm_compute. reflexivity.
Defined.

(** ** The workflow on its own *)

Section Workflow.

Variable llm : LLM.

Lemma apply_finalizer_update cp :
  checkpoint_ok cp →
  apply_update (id_supply cp) (values cp) (content_finalizer (values cp))
  = (values cp, id_supply cp).
Proof.
  intros [Hgp Hhf]. unfold apply_update, content_finalizer.
  cbn [u_generated_post u_human_feedback u_should_continue].
  rewrite !add_messages_same by done. by destruct (values cp).
Qed.

Lemma run_stream_workflow fuel cp resume calls emitted :
  Forall workflow_chunk emitted →
  match r_stream (run llm fuel cp resume calls emitted) with
  | inl _ => True
  | inr chunks => Forall workflow_chunk chunks
  end.
Proof.
  revert cp resume calls emitted.
  induction fuel as [|fuel IH]; intros cp resume calls emitted Hem; [done|].
  rewrite run_unfold. destruct (next cp) as [[| |]|]; [| | |done].
  - destruct (content_generator llm calls (values cp)) as [e|u]; [done|].
    destruct (apply_update _ _ u) as [st' s']. apply IH.
    apply Forall_app. split; [done|]. apply Forall_singleton. cbn. by left.
  - destruct resume as [f|].
    + cbv zeta. destruct (apply_update _ _ _) as [st' s']. apply IH.
      apply Forall_app. split; [done|]. apply Forall_singleton. cbn. right. by left.
    + cbn [r_stream]. apply Forall_app. split; [done|]. by apply Forall_singleton.
  - cbv zeta. destruct (apply_update _ _ _) as [st' s']. apply IH.
    apply Forall_app. split; [done|]. apply Forall_singleton. cbn. right. by right.
Qed.

End Workflow.

(** X10: the workflow resumed at the gate with the terminal marker, as the
    stand-alone driver of [conversation.py] does, records the marker in the
    feedback history, routes to the finalizer and finishes: the generator is
    not called, the drafts are unchanged and no node remains scheduled. *)
Theorem workflow_finishes_on_done
    (llm : LLM) (cp : Checkpoint) (f : string) (calls : nat) :
  checkpoint_ok cp →
  next cp = Some N_feedback_collector →
  is_done f = true →
  let r := run llm recursion_limit cp (Some f) calls [] in
  r_calls r = calls ∧
  next (r_checkpoint r) = None ∧
  should_continue (values (r_checkpoint r)) = false ∧
  map content (human_feedback (values (r_checkpoint r)))
    = (map content (human_feedback (values cp)) ++ [f])%list ∧
  generated_post (values (r_checkpoint r)) = generated_post (values cp) ∧
  ∃ chunks, r_stream r = inr chunks ∧ length chunks = 2%nat.
Proof.
  intros Hok Hnext Hd r. subst r.
  change recursion_limit with (S (S (S 22))). rewrite run_collect by done.
  assert (after_feedback cp f
          = {| values :=
                 {| st_topic := st_topic (values cp);
                    st_content_length := st_content_length (values cp);
                    st_writing_style := st_writing_style (values cp);
                    generated_post := generated_post (values cp);
                    human_feedback :=
                      (human_feedback (values cp)
                         ++ [ {| msg_id := Some (id_supply cp); content := f |} ])%list;
                    should_continue := false |};
               next := Some N_content_finalizer;
               id_supply := S (id_supply cp) |}) as Haf.
  { unfold after_feedback. rewrite apply_collector_update by done. by rewrite Hd. }
  rewrite Haf. set (cp1 := {| values := _; next := Some N_content_finalizer |}).
  assert (checkpoint_ok cp1) as Hok1.
  { destruct Hok as [Hgp Hhf]. split; cbn.
    - apply (ids_ok_mono (id_supply cp)); [lia|done].
    - by apply ids_ok_snoc. }
  rewrite run_unfold. cbn [next cp1]. cbv zeta.
  rewrite (apply_finalizer_update cp1 Hok1). rewrite run_unfold.
  cbn [next r_checkpoint r_calls r_stream values cp1 should_continue human_feedback
       generated_post].
  rewrite map_app. repeat split. by eexists.
Qed.

Lemma workflow_finishes_on_done_witness :
  let cp :=
    {| values :=
         {| st_topic := "AI in healthcare"; st_content_length := "short";
            st_writing_style := "";
            generated_post := [ {| msg_id := Some 0%nat; content := "draft one" |} ];
            human_feedback := [];
            should_continue := true |};
       next := Some N_feedback_collector;
       id_supply := 1 |} in
  let r := run sample_llm recursion_limit cp (Some "Done") 1 [] in
  r_calls r = 1%nat ∧
  next (r_checkpoint r) = None ∧
  should_continue (values (r_checkpoint r)) = false ∧
  map content (human_feedback (values (r_checkpoint r)))
    = (map content (human_feedback (values cp)) ++ ["Done"])%list ∧
  generated_post (values (r_checkpoint r)) = generated_post (values cp) ∧
  ∃ chunks, r_stream r = inr chunks ∧ length chunks = 2%nat.
Proof.
  intros cp. apply (workflow_finishes_on_done sample_llm cp "Done" 1).
  - split; [|apply ids_ok_nil]. split.
    + apply NoDup_singleton.
    + apply Forall_singleton. exists 0%nat. split; [reflexivity | cbn; lia].
  - reflexivity.
  - reflexivity.
Defined.

(** ** The session handlers of [optimization_agent.py] *)

Section AgentCopy.

Variable llm : LLM.

Lemma agent_scan_chunk_workflow chunk post :
  workflow_chunk chunk → AgentApp.scan_chunk chunk post = post.
Proof.
  destruct chunk as [|[node_id value] [|? ?]]; [done| |by destruct value].
  destruct value as [u|payload]; cbn [workflow_chunk].
  - intros [-> | [-> | ->]]; cbn; by destruct (u_generated_post u).
  - by intros ->.
Qed.

Lemma agent_scan_stream_workflow chunks post :
  Forall workflow_chunk chunks → AgentApp.scan_stream chunks post = post.
Proof.
  unfold AgentApp.scan_stream. intros H. revert post.
  induction H as [|chunk chunks Hc _ IH]; intros post; [done|].
  cbn [foldl]. by rewrite agent_scan_chunk_workflow.
Qed.

Lemma agent_start_outcome uuid t1 t2 request w :
  match (AgentApp.start_ai_agent_session llm uuid t1 t2 request w).2 with
  | inl _ => True
  | inr resp =>
      start_generated_post resp = "" ∧
      (current_post <$>
         active_sessions (AgentApp.start_ai_agent_session llm uuid t1 t2 request w).1
           !! uuid) = Some ""
  end.
Proof.
  unfold AgentApp.start_ai_agent_session, AgentApp.start_ai_agent_session_try, stream_input.
  cbv zeta.
  pose proof (run_stream_workflow llm recursion_limit
                (input_checkpoint (checkpointer w !! uuid) request) None (llm_calls w) []
                (Forall_nil_2 _)) as Hwf.
  revert Hwf.
  generalize (run llm recursion_limit
                (input_checkpoint (checkpointer w !! uuid) request)
                None (llm_calls w) []).
  intros r Hwf. destruct (r_stream r) as [e|chunks]; [done|].
  cbn [fst snd active_sessions start_generated_post].
  rewrite agent_scan_stream_workflow by done. by rewrite lookup_insert_eq.
Qed.

Lemma agent_feedback_outcome now request w :
  match (AgentApp.provide_ai_agent_feedback llm now request w).2 with
  | inl _ => True
  | inr resp =>
      fb_status resp = waiting_feedback →
      fb_generated_post resp = Some "" ∧
      (current_post <$>
         active_sessions (AgentApp.provide_ai_agent_feedback llm now request w).1
           !! session_id request) = Some ""
  end.
Proof.
  unfold AgentApp.provide_ai_agent_feedback, AgentApp.provide_ai_agent_feedback_try.
  destruct (active_sessions w !! session_id request) as [s|] eqn:Hs; [|done].
  destruct (String.eqb _ _); [cbn; discriminate|].
  unfold stream_resume.
  destruct (checkpointer w !! thread_config s) as [cp|].
  - pose proof (run_stream_workflow llm recursion_limit cp (Some (feedback request))
                  (llm_calls w) [] (Forall_nil_2 _)) as Hwf.
    revert Hwf.
    generalize (run llm recursion_limit cp (Some (feedback request)) (llm_calls w) []).
    intros r Hwf. destruct (r_stream r) as [e|chunks]; [done|].
    cbn [fst snd active_sessions fb_generated_post]. intros _.
    rewrite agent_scan_stream_workflow by done.
    by rewrite !lookup_alter_eq, Hs.
  - done.
Qed.

End AgentCopy.

(** X11: the start handler repeated in [optimization_agent.py] never
    reports a draft: its streaming loop waits for a node called "model",
    which the workflow does not have, so every session it creates is
    answered and stored with the empty string as its draft. *)
Theorem agent_copy_start_has_no_draft
    (llm : LLM) (uuid : string) (now_created now_activity : Z)
    (request : AIAgentStartRequest) (w w' : World) (resp : AIAgentResponse) :
  AgentApp.start_ai_agent_session llm uuid now_created now_activity request w
    = (w', inr resp) →
  start_generated_post resp = "" ∧
  (current_post <$> active_sessions w' !! uuid) = Some "".
Proof.
  intros H.
  pose proof (agent_start_outcome llm uuid now_created now_activity request w) as Hout.
  by rewrite H in Hout.
Qed.

Lemma agent_copy_start_has_no_draft_witness :
  "" = "" ∧
  (current_post <$>
     active_sessions
       (AgentApp.start_ai_agent_session sample_llm "s1" 0 0 sample_request empty_world).1
       !! "s1") = Some "".
Proof.
  eapply (agent_copy_start_has_no_draft sample_llm "s1" 0 0 sample_request empty_world
            _ {| start_session_id := "s1";
                 start_generated_post := "";
                 start_status := waiting_feedback;
                 start_success := true;
                 start_message :=
                   Some "AI agent session started. Content generated, waiting for feedback." |}).
  vm_compute. reflexivity.
Defined.

(** X12: the feedback handler repeated in [optimization_agent.py] answers
    every successful revision with the empty string as the new draft and
    overwrites the stored draft with it. *)
Theorem agent_copy_revision_erases_draft
    (llm : LLM) (now : Z) (request : AIAgentFeedbackRequest) (w w' : World)
    (resp : AIAgentFeedbackResponse) :
  AgentApp.provide_ai_agent_feedback llm now request w = (w', inr resp) →
  fb_status resp = waiting_feedback →
  fb_generated_post resp = Some "" ∧
  (current_post <$> active_sessions w' !! session_id request) = Some "".
Proof.
  intros H Hst.
  pose proof (agent_feedback_outcome llm now request w) as Hout.
  rewrite H in Hout. by apply Hout.
Qed.

Lemma agent_copy_revision_erases_draft_witness :
  Some "" = Some "" ∧
  (current_post <$>
     active_sessions
       (AgentApp.provide_ai_agent_feedback sample_llm 10
          (sample_feedback "make it punchier") sample_created).1
       !! session_id (sample_feedback "make it punchier")) = Some "".
Proof.
  eapply (agent_copy_revision_erases_draft sample_llm 10
            (sample_feedback "make it punchier") sample_created _
            {| fb_session_id := "s1";
               fb_generated_post := Some "";
               fb_status := waiting_feedback;
               fb_success := true;
               fb_message :=
                 Some "Feedback processed. New content generated, waiting for more feedback." |}).
  - vm_compute. reflexivity.
  - reflexivity.
Defined.

(** ** Checkpoints are kept *)

Section Checkpoints.

Variable llm : LLM.

Lemma start_keeps_checkpoints uuid t1 t2 request w k :
  is_Some (checkpointer w !! k) →
  is_Some (checkpointer (start_ai_agent_session llm uuid t1 t2 request w).1 !! k).
Proof.
  intros Hk. unfold start_ai_agent_session, start_ai_agent_session_try, stream_input.
  cbv zeta.
  generalize (run llm recursion_limit
                (input_checkpoint (checkpointer w !! uuid) request)
                None (llm_calls w) []).
  intros r. destruct (r_stream r); cbn [fst checkpointer];
    (destruct (decide (k = uuid)) as [->|Hne];
     [by rewrite lookup_insert_eq | by rewrite lookup_insert_ne]).
Qed.

Lemma feedback_keeps_checkpoints now request w k :
  is_Some (checkpointer w !! k) →
  is_Some (checkpointer (provide_ai_agent_feedback llm now request w).1 !! k).
Proof.
  intros Hk. unfold provide_ai_agent_feedback, provide_ai_agent_feedback_try.
  destruct (active_sessions w !! session_id request) as [s|]; [|done].
  destruct (String.eqb _ _); [done|].
  unfold stream_resume.
  destruct (checkpointer w !! thread_config s) as [cp|]; [|done].
  generalize (run llm recursion_limit cp (Some (feedback request)) (llm_calls w) []).
  intros r. destruct (r_stream r); cbn [fst checkpointer];
    (destruct (decide (k = thread_config s)) as [->|Hne];
     [by rewrite lookup_insert_eq | by rewrite lookup_insert_ne]).
Qed.

End Checkpoints.

(** X13: no handler releases workflow state: a thread that has a checkpoint
    before a create, a feedback submission, a deletion or a sweep still has
    one afterwards; deletion and sweep remove the session record only. *)
Theorem handlers_keep_checkpoints
    (llm : LLM) (uuid sid k : string) (t1 t2 now : Z)
    (start_request : AIAgentStartRequest) (feedback_request : AIAgentFeedbackRequest)
    (w w' : World) :
  w' = (start_ai_agent_session llm uuid t1 t2 start_request w).1
  ∨ w' = (provide_ai_agent_feedback llm now feedback_request w).1
  ∨ w' = (delete_ai_agent_session sid w).1
  ∨ w' = (manual_cleanup_sessions now w).1 →
  is_Some (checkpointer w !! k) →
  is_Some (checkpointer w' !! k).
Proof.
  intros [-> | [-> | [-> | ->]]] Hk.
  - by apply start_keeps_checkpoints.
  - by apply feedback_keeps_checkpoints.
  - unfold delete_ai_agent_session. by destruct (active_sessions w !! sid).
  - unfold manual_cleanup_sessions.
    by destruct (cleanup_expired_sessions now (active_sessions w)).
Qed.

Lemma handlers_keep_checkpoints_witness :
  is_Some (checkpointer (delete_ai_agent_session "s1" sample_finished).1 !! "s1").
Proof.
  apply (handlers_keep_checkpoints sample_llm "s2" "s1" "s1" 0 0 0 sample_request
           (sample_feedback "done") sample_finished).
  - right. right. left. reflexivity.
  - vm_compute. by eexists.
Defined.

(** ** Parsing the generator's answer *)

Lemma upto_last_close_none post :
  contains_char "}"%char post = false → upto_last_close post = None.
Proof.
  induction post as [|c r IH]; [done|]. cbn [contains_char upto_last_close].
  intros H. apply orb_false_iff in H as [Hc Hr]. by rewrite IH, Hc.
Qed.

Lemma string_app_cons c (r s : string) : String c r ++ s = String c (r ++ s).
Proof. reflexivity. Qed.

Lemma string_app_nil (s : string) : "" ++ s = s.
Proof. reflexivity. Qed.

Lemma upto_last_close_span mid post :
  contains_char "}"%char post = false →
  upto_last_close (mid ++ String "}"%char post) = Some (mid ++ "}").
Proof.
  intros Hpost. induction mid as [|c r IH].
  - rewrite !string_app_nil. cbn [upto_last_close].
    rewrite (upto_last_close_none post Hpost). reflexivity.
  - rewrite !string_app_cons. cbn [upto_last_close]. rewrite IH. reflexivity.
Qed.

Lemma search_braces_span pre mid post :
  contains_char "{"%char pre = false →
  contains_char "}"%char post = false →
  search_braces (pre ++ String "{"%char (mid ++ String "}"%char post))
  = Some (String "{"%char (mid ++ "}")).
Proof.
  intros Hpre Hpost. induction pre as [|c r IH].
  - rewrite string_app_nil. cbn [search_braces]. rewrite Ascii.eqb_refl.
    by rewrite upto_last_close_span.
  - cbn [contains_char] in Hpre. apply orb_false_iff in Hpre as [Hc Hr].
    rewrite string_app_cons. cbn [search_braces]. rewrite Hc. by apply IH.
Qed.

(** X14: prose around the structured part is ignored: when the generator's
    text is an opening brace, a body and a closing brace, preceded by text
    without an opening brace and followed by text without a closing brace,
    [optimize_content] hands exactly the braces and the body to the JSON
    parser; it returns what the parser returns, and the fallback report when
    the parser rejects it. *)
Theorem optimize_content_strips_prose
    (llm : AnalysisLLM) (json_loads : string → option json)
    (content topic content_length industry pre mid post : string) :
  llm content topic content_length industry
    = Returns (pre ++ String "{"%char (mid ++ String "}"%char post)) →
  contains_char "{"%char pre = false →
  contains_char "}"%char post = false →
  optimize_content llm json_loads content topic content_length industry
  = default (_create_fallback_optimization content topic)
      (json_loads (String "{"%char (mid ++ "}"))).
Proof.
  intros Hllm Hpre Hpost. unfold optimize_content, optimize_content_with.
  rewrite Hllm, search_braces_span by done.
  by destruct (json_loads _).
Qed.

Lemma optimize_content_strips_prose_witness :
  optimize_content (λ _ _ _ _, Returns "Here you go: {} Enjoy!")
    (λ js, if String.eqb js "{}" then Some (JDict []) else None)
    "post" "AI" "medium" "general"
  = default (_create_fallback_optimization "post" "AI")
      ((λ js, if String.eqb js "{}" then Some (JDict []) else None)
         (String "{"%char ("" ++ "}"))).
Proof.
  apply (optimize_content_strips_prose
           (λ _ _ _ _, Returns "Here you go: {} Enjoy!")
           (λ js, if String.eqb js "{}" then Some (JDict []) else None)
           "post" "AI" "medium" "general"
           "Here you go: " "" " Enjoy!").
  - reflexivity.
  - reflexivity.
  - reflexivity.
Defined.

(** ** Hashtags *)

Lemma findall_no_number_sign text :
  contains_char "#"%char text = false → findall_hashtags_aux None text = [].
Proof.
  induction text as [|c r IH]; [done|]. cbn [contains_char findall_hashtags_aux].
  intros H. apply orb_false_iff in H as [Hc Hr]. unfold open_hashtag. rewrite Hc.
  by apply IH.
Qed.

(** X16: when the generator's text has no number sign in it, the
    hashtags-only operation returns its three default hashtags, whatever
    count was requested. *)
Theorem no_number_sign_gives_defaults
    (llm : HashtagLLM) (content topic text : string) (count : Z) :
  llm content topic count = Returns text →
  contains_char "#"%char text = false →
  suggest_hashtags_only llm content topic count
  = ["#Content"; "#Professional"; "#Growth"].
Proof.
  intros Hllm Hno. unfold suggest_hashtags_only, suggest_hashtags_only_with, findall_hashtags.
  by rewrite Hllm, findall_no_number_sign.
Qed.

Lemma no_number_sign_gives_defaults_witness :
  suggest_hashtags_only (λ _ _ _, Returns "I cannot think of any.") "post" "AI" 0
  = ["#Content"; "#Professional"; "#Growth"].
Proof.
  apply (no_number_sign_gives_defaults (λ _ _ _, Returns "I cannot think of any.")
           "post" "AI" "I cannot think of any." 0).
  - reflexivity.
  - reflexivity.
Defined.

(** X17: the handler of [/api/optimization/hashtags] always answers with
    success and with between one and eight strings, whatever the generator
    returns or raises; each of them is a token [re.findall] found or a
    fixed hashtag, so whatever holds of all of those, as matching the
    pattern does, holds of every string in the answer. *)
Theorem hashtags_endpoint_bounds
    (findall : string → list string) (shape : string → Prop)
    (llm : HashtagLLM) (request : OptimizationRequest) :
  (∀ text, Forall shape (findall text)) →
  Forall shape ["#Content"; "#Professional"; "#Growth"; "#Success"; "#Business"] →
  ∃ resp,
    api_suggest_hashtags_only_with findall llm request = inr resp ∧
    hashtags_success resp = true ∧
    (1 ≤ length (hashtags resp) ≤ 8)%nat ∧
    Forall shape (hashtags resp).
Proof.
  intros Hfind Hdef.
  eexists. split; [reflexivity|]. cbn [hashtags_success hashtags]. split; [done|].
  unfold suggest_hashtags_only_with.
  destruct (llm (req_content request) (req_topic request) 8) as [text|msg].
  - pose proof (Hfind text) as Hall.
    destruct (findall text) as [|h found] eqn:Hf.
    + split; [cbn; lia | exact (Forall_take shape 3%nat _ Hdef)].
    + rewrite slice_to_nonneg by lia. split; [|by apply Forall_take].
      rewrite length_take. cbn [length]. change (Z.to_nat 8) with 8%nat. lia.
  - split; [cbn; lia | done].
Qed.

Lemma hashtags_endpoint_bounds_witness :
  let request :=
    {| req_content := "post"; req_topic := "AI";
       req_content_length := "medium"; req_industry := "general" |} in
  let resp :=
    {| hashtags := ["#AI"; "#ML_2"];
       hashtags_success := true;
       hashtags_message := "Hashtag suggestions generated successfully" |} in
  api_suggest_hashtags_only_with findall_hashtags two_hashtags_llm request = inr resp ∧
  hashtags_success resp = true ∧
  (1 ≤ length (hashtags resp) ≤ 8)%nat ∧
  Forall (λ h, is_hashtag h = true) (hashtags resp).
Proof.
  intros request resp.
  destruct (hashtags_endpoint_bounds findall_hashtags (λ h, is_hashtag h = true)
              two_hashtags_llm request) as (resp' & Heq & Hrest).
  - apply findall_hashtags_ok.
  - by repeat constructor.
  - assert (api_suggest_hashtags_only_with findall_hashtags two_hashtags_llm request
            = inr resp) as Hsample by reflexivity.
    rewrite Hsample in Heq. injection Heq as <-.
    split; [exact Hsample | exact Hrest].
Defined.

(** ** The prompt of a revision *)

(** X18: a revision is prompted by the feedback just submitted: after the
    feedback collector has recorded feedback [f], the generator's prompt
    carries the session's topic, length and style and, as its feedback, the
    message holding [f]; earlier feedback is not part of the prompt. *)
Theorem revision_prompt_has_latest_feedback (cp : Checkpoint) (f : string) :
  checkpoint_ok cp →
  let prompt := content_generator_prompt (values (after_feedback cp f)) in
  p_topic prompt = st_topic (values cp) ∧
  p_content_length prompt = st_content_length (values cp) ∧
  p_writing_style prompt = st_writing_style (values cp) ∧
  p_feedback prompt = Some {| msg_id := Some (id_supply cp); content := f |}.
Proof.
  intros Hok prompt. subst prompt. unfold after_feedback.
  rewrite apply_collector_update by done.
  unfold content_generator_prompt.
  cbn [fst values st_topic st_content_length st_writing_style human_feedback
       p_topic p_content_length p_writing_style p_feedback].
  by rewrite last_snoc.
Qed.

Lemma revision_prompt_has_latest_feedback_witness :
  let cp :=
    {| values :=
         {| st_topic := "AI in healthcare"; st_content_length := "short";
            st_writing_style := "";
            generated_post := [ {| msg_id := Some 0%nat; content := "draft one" |} ];
            human_feedback := [];
            should_continue := true |};
       next := Some N_feedback_collector;
       id_supply := 1 |} in
  let prompt := content_generator_prompt (values (after_feedback cp "make it punchier")) in
  p_topic prompt = st_topic (values cp) ∧
  p_content_length prompt = st_content_length (values cp) ∧
  p_writing_style prompt = st_writing_style (values cp) ∧
  p_feedback prompt
    = Some {| msg_id := Some (id_supply cp); content := "make it punchier" |}.
Proof.
  intros cp. apply (revision_prompt_has_latest_feedback cp "make it punchier").
  split; [|apply ids_ok_nil]. split.
  - apply NoDup_singleton.
  - apply Forall_singleton. exists 0%nat. split; [reflexivity | cbn; lia].
Defined.

(** ** Expired sessions until they are swept *)

(** X19: expiry takes effect only through the sweep: a stored session whose
    age exceeds the timeout can still be read, and the terminal marker is
    still accepted for it; once a sweep at that instant has run, reading it
    gives 404 and any feedback for it fails. *)
Theorem expired_session_until_swept
    (llm : LLM) (now : Z) (sid f : string) (w : World) (s : Session) :
  active_sessions w !! sid = Some s →
  is_expired now s = true →
  let swept := (manual_cleanup_sessions now w).1 in
  get_ai_agent_session sid w = inr (current_post s, status s) ∧
  (∃ w' resp,
     provide_ai_agent_feedback llm now {| session_id := sid; feedback := "done" |} w
       = (w', inr resp) ∧ fb_status resp = completed) ∧
  get_ai_agent_session sid swept = inl (HTTPException 404 "Session not found") ∧
  provide_ai_agent_feedback llm now {| session_id := sid; feedback := f |} swept
    = (swept,
       inl (HTTPException 500 "Error processing feedback: 404: Session not found")).
Proof.
  intros Hs He swept.
  assert (active_sessions swept !! sid = None) as Hgone.
  { subst swept. unfold manual_cleanup_sessions.
    pose proof (cleanup_lookup now (active_sessions w) sid) as Hl.
    destruct (cleanup_expired_sessions now (active_sessions w)) as [n m'].
    cbn [fst snd active_sessions] in *. by rewrite Hl, Hs, He. }
  split; [|split; [|split]].
  - unfold get_ai_agent_session. by rewrite Hs.
  - rewrite (feedback_done llm now {| session_id := sid; feedback := "done" |} w s Hs eq_refl).
    by eexists _, _.
  - unfold get_ai_agent_session. by rewrite Hgone.
  - by apply feedback_not_found.
Qed.

Lemma expired_session_until_swept_witness :
  let swept := (manual_cleanup_sessions 400000000 sample_revised).1 in
  get_ai_agent_session "s1" sample_revised = inr ("draft two", waiting_feedback) ∧
  (∃ w' resp,
     provide_ai_agent_feedback sample_llm 400000000
       {| session_id := "s1"; feedback := "done" |} sample_revised
       = (w', inr resp) ∧ fb_status resp = completed) ∧
  get_ai_agent_session "s1" swept = inl (HTTPException 404 "Session not found") ∧
  provide_ai_agent_feedback sample_llm 400000000
    {| session_id := "s1"; feedback := "shorter" |} swept
    = (swept,
       inl (HTTPException 500 "Error processing feedback: 404: Session not found")).
Proof.
  apply (expired_session_until_swept sample_llm 400000000 "s1" "shorter" sample_revised
           {| thread_config := "s1"; state := sample_request;
              current_post := "draft two"; status := waiting_feedback;
              created_at := 0; last_activity := Some 10 |}).
  - vm_compute. reflexivity.
  - vm_compute. reflexivity.
Defined.
